(** * A shallow embedding of the attendance report pipeline

    Two Python implementations of one pipeline: [AttendanceReport.py]
    (hand-rolled, over lists of JSON dictionaries) and
    [AttendanceReport_alternate.py] (over data frames).  JSON objects are
    records, JSON [null] is [None], Python exceptions are the [Err] branch
    of a small error monad, numbers are exact rationals [Q]. *)

From Stdlib Require Import String Ascii ZArith QArith.
From stdpp Require Import base list strings.

Open Scope Z_scope.

(* ------------------------------------------------------------------ *)
(** ** Python exceptions and the error monad *)

Inductive pyexc : Type :=
  | ValueError
  | TypeError
  | KeyError
  | ZeroDivisionError.

Inductive result (A : Type) : Type :=
  | Ok : A -> result A
  | Err : pyexc -> result A.
Arguments Ok {A} _.
Arguments Err {A} _.

Definition rbind {A B : Type} (m : result A) (k : A -> result B) : result B :=
  match m with
  | Ok a => k a
  | Err e => Err e
  end.

Notation "x <-- m ;; k" := (rbind m (fun x => k))
  (at level 100, m at next level, right associativity).

Fixpoint rmap {A B : Type} (f : A -> result B) (l : list A) : result (list B) :=
  match l with
  | [] => Ok []
  | x :: xs => y <-- f x ;; ys <-- rmap f xs ;; Ok (y :: ys)
  end.

(* ------------------------------------------------------------------ *)
(** ** Strings: [str.split], digits, [int()] *)

(** [s.split(sep)] for a one-character separator: always at least one part. *)
Fixpoint py_split (sep : ascii) (s : string) : list string :=
  match s with
  | EmptyString => [EmptyString]
  | String c rest =>
      let parts := py_split sep rest in
      if Ascii.eqb c sep then EmptyString :: parts
      else match parts with
           | p :: ps => String c p :: ps
           | [] => [String c EmptyString]
           end
  end.

Definition digit_val (c : ascii) : option Z :=
  let n := Z.of_nat (nat_of_ascii c) in
  if (48 <=? n) && (n <=? 57) then Some (n - 48) else None.

(** A non-empty run of ASCII digits, as a number. *)
Fixpoint digits_acc (acc : Z) (s : string) : option Z :=
  match s with
  | EmptyString => Some acc
  | String c rest =>
      match digit_val c with
      | Some d => digits_acc (acc * 10 + d) rest
      | None => None
      end
  end.

Definition digits_val (s : string) : option Z :=
  match s with
  | EmptyString => None
  | _ => digits_acc 0 s
  end.

Definition is_py_space (c : ascii) : bool :=
  let n := nat_of_ascii c in
  (n =? 32)%nat || ((9 <=? n)%nat && (n <=? 13)%nat).

Fixpoint lstrip (s : string) : string :=
  match s with
  | String c rest => if is_py_space c then lstrip rest else s
  | EmptyString => EmptyString
  end.

Fixpoint rstrip (s : string) : string :=
  match s with
  | String c rest =>
      match rstrip rest with
      | EmptyString => if is_py_space c then EmptyString else String c EmptyString
      | r => String c r
      end
  | EmptyString => EmptyString
  end.

Definition py_strip (s : string) : string := rstrip (lstrip s).

(** Digits of an [int()] literal: single underscores allowed between digits. *)
Fixpoint int_digits (acc : Z) (after_digit : bool) (s : string) : option Z :=
  match s with
  | EmptyString => if after_digit then Some acc else None
  | String c rest =>
      match digit_val c with
      | Some d => int_digits (acc * 10 + d) true rest
      | None =>
          if Ascii.eqb c "_"%char && after_digit then
            match rest with
            | String c' _ =>
                match digit_val c' with
                | Some _ => int_digits acc false rest
                | None => None
                end
            | EmptyString => None
            end
          else None
      end
  end.

(** Python's [int(s)] on a string (ASCII only): [None] is the ValueError. *)
Definition py_int (s : string) : option Z :=
  match py_strip s with
  | String "+" rest => int_digits 0 false rest
  | String "-" rest => option_map Z.opp (int_digits 0 false rest)
  | t => int_digits 0 false t
  end.

Definition of_option {A : Type} (o : option A) (e : pyexc) : result A :=
  match o with
  | Some a => Ok a
  | None => Err e
  end.

(* ------------------------------------------------------------------ *)
(** ** [datetime.strptime] on times ["%H:%M:%S"] and dates ["%Y-%m-%d"] *)

Record time_of_day := mk_time { t_hour : Z; t_minute : Z; t_second : Z }.

(** A field of one or two ASCII digits. *)
Definition short_field (s : string) : option Z :=
  if ((1 <=? String.length s)%nat && (String.length s <=? 2)%nat) then digits_val s
  else None.

(** [datetime.strptime(s, "%H:%M:%S").time()]; [None] is the ValueError
    ([%S] also matches 60 and 61, which [datetime] then refuses). *)
Definition strptime_time (s : string) : option time_of_day :=
  match py_split ":" s with
  | [hs; ms; ss] =>
      match short_field hs, short_field ms, short_field ss with
      | Some h, Some m, Some sec =>
          if (h <=? 23) && (m <=? 59) && (sec <=? 59)
          then Some (mk_time h m sec) else None
      | _, _, _ => None
      end
  | _ => None
  end.

(** [datetime.time] ordering: tuples [(hour, minute, second)]. *)
Definition time_lt (a b : time_of_day) : bool :=
  (t_hour a <? t_hour b)
  || ((t_hour a =? t_hour b) && (t_minute a <? t_minute b))
  || ((t_hour a =? t_hour b) && (t_minute a =? t_minute b)
      && (t_second a <? t_second b)).

Definition seconds_of (t : time_of_day) : Z :=
  t_hour t * 3600 + t_minute t * 60 + t_second t.

Record date := mk_date { d_year : Z; d_month : Z; d_day : Z }.

Definition is_leap (y : Z) : bool :=
  (y mod 4 =? 0) && (negb (y mod 100 =? 0) || (y mod 400 =? 0)).

Definition days_in_month (y m : Z) : Z :=
  if m =? 2 then (if is_leap y then 29 else 28)
  else if (m =? 4) || (m =? 6) || (m =? 9) || (m =? 11) then 30
  else 31.

(** [%d] also accepts a space followed by one digit. *)
Definition day_field (s : string) : option Z :=
  match s with
  | String " " (String c EmptyString) =>
      match digit_val c with
      | Some d => if 1 <=? d then Some d else None
      | None => None
      end
  | _ => short_field s
  end.

(** [datetime.strptime(s, "%Y-%m-%d")]: [%Y] is exactly four digits,
    [datetime] needs [1 <= year], a month in 1..12 and a day of that month. *)
Definition strptime_date (s : string) : option date :=
  match py_split "-" s with
  | [ys; ms; ds] =>
      if (String.length ys =? 4)%nat then
        match digits_val ys, short_field ms, day_field ds with
        | Some y, Some m, Some d =>
            if (1 <=? y) && (1 <=? m) && (m <=? 12)
               && (1 <=? d) && (d <=? days_in_month y m)
            then Some (mk_date y m d) else None
        | _, _, _ => None
        end
      else None
  | _ => None
  end.

(** [datetime._days_before_year], [_days_before_month], [_ymd2ord]. *)
Definition days_before_year (year : Z) : Z :=
  let y := year - 1 in y * 365 + y / 4 - y / 100 + y / 400.

Definition days_before_month (year month : Z) : Z :=
  nth (Z.to_nat (month - 1)) [0; 31; 59; 90; 120; 151; 181; 212; 243; 273; 304; 334] 0
  + (if (2 <? month) && is_leap year then 1 else 0).

Definition toordinal (d : date) : Z :=
  days_before_year (d_year d) + days_before_month (d_year d) (d_month d) + d_day d.

(** [datetime._isoweek1monday]. *)
Definition isoweek1monday (year : Z) : Z :=
  let firstday := days_before_year year + 1 in
  let firstweekday := (firstday + 6) mod 7 in
  let week1monday := firstday - firstweekday in
  if 3 <? firstweekday then week1monday + 7 else week1monday.

(** [date.isocalendar().week]. *)
Definition iso_week (d : date) : Z :=
  let year := d_year d in
  let today := toordinal d in
  let week := (today - isoweek1monday year) / 7 in
  if week <? 0 then (today - isoweek1monday (year - 1)) / 7 + 1
  else if (52 <=? week) && (isoweek1monday (year + 1) <=? today) then 1
  else week + 1.

(* ------------------------------------------------------------------ *)
(** ** The JSON records the pipeline reads and writes *)

Record attendance := mk_attendance {
  employee_record_id : Z;
  att_date : string;
  clock_in : option string;
  clock_out : option string }.

Record weather := mk_weather {
  w_country : string;
  w_date : string;
  condition : string;
  max_temp : Q }.

Record event := mk_event {
  e_country : string;
  e_event_date : string;
  e_event_name : string }.

Record employee := mk_employee {
  record_id : Z;
  name : string;
  work_id_number : string;
  email_address : string;
  country : string;
  phone_number : string }.

(** The [event_reason] dictionary [{country, event_name, event_date}]. *)
Record event_reason := mk_event_reason {
  r_country : string;
  r_event_name : string;
  r_event_date : string }.

(** A Python float that may be [nan] (the data-frame mean of nothing). *)
Inductive pyfloat := Num (q : Q) | NaN.

(** The [employee_information] dictionary of a wayward employee. *)
Record report := mk_report {
  rep_employee : employee;
  average_hours_per_week : pyfloat;
  rep_events : list event_reason }.

Definition bad_weather_conditions : list string :=
  ["hail"; "thunderstorm"; "blizzard"; "hurricane"]%string.

(* ------------------------------------------------------------------ *)
(** ** [AttendanceReport.py] *)

Module AttendanceReport.

(** [strptime(v, "%H:%M:%S").time()] on a JSON value: [None] raises TypeError. *)
Definition parse_clock (v : option string) : result time_of_day :=
  match v with
  | None => Err TypeError
  | Some s => of_option (strptime_time s) ValueError
  end.

Definition parse_date (s : string) : result date :=
  of_option (strptime_date s) ValueError.

(** [int(date_val.split('-')[0])] *)
Definition date_year_of (date_val : string) : result Z :=
  match py_split "-" date_val with
  | part :: _ => of_option (py_int part) ValueError
  | [] => Err ValueError
  end.

Definition check_if_date_is_in_year (date_val : string) (year : Z) : result bool :=
  date_year <-- date_year_of date_val ;;
  Ok (date_year =? year).

Fixpoint remove_duplicate_events_loop (unique_dates : list string)
    (event_data : list event_reason) : list event_reason :=
  match event_data with
  | [] => []
  | ev :: rest =>
      if bool_decide (r_event_date ev ∈ unique_dates)
      then remove_duplicate_events_loop unique_dates rest
      else ev :: remove_duplicate_events_loop (r_event_date ev :: unique_dates) rest
  end.

Definition remove_duplicate_events (event_data : list event_reason) : list event_reason :=
  remove_duplicate_events_loop [] event_data.

Definition calculate_total_hours (start_time stop_time : string) : result Q :=
  start <-- of_option (strptime_time start_time) ValueError ;;
  stop <-- of_option (strptime_time stop_time) ValueError ;;
  Ok (inject_Z (seconds_of stop - seconds_of start) / 3600)%Q.

(** The hours of one row: [0] unless both clock times are present. *)
Definition row_hours (a : attendance) : result Q :=
  match clock_in a, clock_out a with
  | Some start_time, Some stop_time => calculate_total_hours start_time stop_time
  | _, _ => Ok 0%Q
  end.

(** [total_hours_per_week[week_key] += total_hours] on a dictionary kept
    as an association list in insertion order. *)
Fixpoint dict_add (k : Z) (h : Q) (d : list (Z * Q)) : list (Z * Q) :=
  match d with
  | [] => [(k, h)]
  | (k', v) :: rest => if k' =? k then (k', v + h)%Q :: rest else (k', v) :: dict_add k h rest
  end.

Fixpoint accumulate_weeks (total_hours_per_week : list (Z * Q))
    (attendance_data : list attendance) : result (list (Z * Q)) :=
  match attendance_data with
  | [] => Ok total_hours_per_week
  | a :: rest =>
      total_hours <-- row_hours a ;;
      d <-- parse_date (att_date a) ;;
      accumulate_weeks (dict_add (iso_week d) total_hours total_hours_per_week) rest
  end.

Definition Qsum (l : list Q) : Q := fold_right Qplus 0%Q l.

Definition calculate_average_hours_per_week (attendance_data : list attendance) : result Q :=
  total_hours_per_week <-- accumulate_weeks [] attendance_data ;;
  let total_hours := Qsum (map snd total_hours_per_week) in
  match length total_hours_per_week with
  | O => Err ZeroDivisionError
  | n => Ok (total_hours / inject_Z (Z.of_nat n))%Q
  end.

Fixpoint get_employee_attendance_data (rid : Z) (employee_attendance_data : list attendance)
    (year : Z) : result (list attendance) :=
  match employee_attendance_data with
  | [] => Ok []
  | emp :: rest =>
      if employee_record_id emp =? rid then
        b <-- check_if_date_is_in_year (att_date emp) year ;;
        employee_data <-- get_employee_attendance_data rid rest year ;;
        Ok (if b then emp :: employee_data else employee_data)
      else get_employee_attendance_data rid rest year
  end.

Definition start_time : time_of_day := mk_time 8 15 0.
Definition end_time : time_of_day := mk_time 16 0 0.

Fixpoint check_employee_times (employee_attendance_data : list attendance)
    : result (list string) :=
  match employee_attendance_data with
  | [] => Ok []
  | a :: rest =>
      match clock_in a, clock_out a with
      | None, None =>
          delinquent_data <-- check_employee_times rest ;;
          Ok (att_date a :: delinquent_data)
      | _, _ =>
          ci <-- parse_clock (clock_in a) ;;
          co <-- parse_clock (clock_out a) ;;
          delinquent_data <-- check_employee_times rest ;;
          Ok (if time_lt start_time ci || time_lt co end_time
              then att_date a :: delinquent_data else delinquent_data)
      end
  end.

Section Pipeline.

(** [list(s)] and [for x in s] on a Python set: some duplicate-free
    enumeration of its elements, in an order the program does not choose. *)
Variable enum_dates : list string -> list string.
Variable enum_events : list (string * string) -> list (string * string).

Fixpoint weather_set_of (weather_data : list weather) (cntry : string)
    : result (list string) :=
  match weather_data with
  | [] => Ok []
  | w :: rest =>
      keep <-- (if String.eqb (w_country w) cntry then
                  in_year <-- check_if_date_is_in_year (w_date w) 2023 ;;
                  Ok (in_year && (bool_decide (condition w ∈ bad_weather_conditions)
                                  || negb (Qle_bool (max_temp w) 40)))
                else Ok false) ;;
      others <-- weather_set_of rest cntry ;;
      Ok (if keep then w_date w :: others else others)
  end.

Fixpoint event_set_of (events_data : list event) (cntry : string)
    : result (list (string * string)) :=
  match events_data with
  | [] => Ok []
  | e :: rest =>
      keep <-- (if String.eqb (e_country e) cntry
                then check_if_date_is_in_year (e_event_date e) 2023
                else Ok false) ;;
      others <-- event_set_of rest cntry ;;
      Ok (if keep then (e_event_date e, e_event_name e) :: others else others)
  end.

(** [difference in [timedelta(days=-1), timedelta(days=0), timedelta(days=1)]] *)
Definition within_one_day (difference : Z) : bool :=
  bool_decide (difference ∈ [-1; 0; 1]).

(** The inner loop over the event set, for one unexplained date. *)
Fixpoint events_near (cntry : string) (no_excuse_date_obj : date)
    (event_list : list (string * string)) : result (list event_reason) :=
  match event_list with
  | [] => Ok []
  | (event_date, event_name) :: rest =>
      event_date_obj <-- parse_date event_date ;;
      let difference := toordinal event_date_obj - toordinal no_excuse_date_obj in
      later <-- events_near cntry no_excuse_date_obj rest ;;
      Ok (if within_one_day difference
          then mk_event_reason cntry event_name event_date :: later else later)
  end.

(** The outer loop over the unexplained delinquent dates. *)
Fixpoint event_reasons (cntry : string) (event_list : list (string * string))
    (no_weather_excuse_list : list string) : result (list event_reason) :=
  match no_weather_excuse_list with
  | [] => Ok []
  | no_excuse_date :: rest =>
      no_excuse_date_obj <-- parse_date no_excuse_date ;;
      here <-- events_near cntry no_excuse_date_obj event_list ;;
      later <-- event_reasons cntry event_list rest ;;
      Ok (here ++ later)
  end.

(** [poor_employee_attendance_set - weather_set] *)
Definition set_difference (xs ys : list string) : list string :=
  List.filter (fun x => negb (bool_decide (x ∈ ys))) xs.

(** [list(poor_employee_attendance_set - weather_set)] *)
Definition no_weather_excuse (poor_employee_attendance_data weather_set : list string)
    : list string :=
  enum_dates (set_difference poor_employee_attendance_data weather_set).

Definition check_dates_against_events (weather_data : list weather)
    (events_data : list event) (poor_employee_attendance_data : list string)
    (cntry : string) : result (list event_reason) :=
  weather_set <-- weather_set_of weather_data cntry ;;
  event_set <-- event_set_of events_data cntry ;;
  let no_weather_excuse_list :=
    no_weather_excuse poor_employee_attendance_data weather_set in
  event_reason_list <-- event_reasons cntry (enum_events event_set) no_weather_excuse_list ;;
  Ok (remove_duplicate_events event_reason_list).

(** One pass of the loop body of [identify_delinquent_employees]. *)
Definition process_employee (attendance_data : list attendance)
    (weather_data : list weather) (events_data : list event) (emp : employee)
    : result (option report) :=
  let cntry := country emp in
  employee_attendance_data <-- get_employee_attendance_data (record_id emp) attendance_data 2023 ;;
  poor_employee_attendance_data <-- check_employee_times employee_attendance_data ;;
  events_cross_reference <--
    check_dates_against_events weather_data events_data poor_employee_attendance_data cntry ;;
  average_hours_worked_per_week <-- calculate_average_hours_per_week employee_attendance_data ;;
  Ok (if 3 <? Z.of_nat (length events_cross_reference)
      then Some (mk_report emp (Num average_hours_worked_per_week) events_cross_reference)
      else None).

(** [identify_delinquent_employees] once the two files and the two remote
    datasets are loaded. *)
Fixpoint identify_delinquent_employees (employee_data : list employee)
    (attendance_data : list attendance) (weather_data : list weather)
    (events_data : list event) : result (list report) :=
  match employee_data with
  | [] => Ok []
  | emp :: rest =>
      o <-- process_employee attendance_data weather_data events_data emp ;;
      wayward_employees <-- identify_delinquent_employees rest attendance_data weather_data events_data ;;
      Ok (match o with Some r => r :: wayward_employees | None => wayward_employees end)
  end.

End Pipeline.

End AttendanceReport.

(* ------------------------------------------------------------------ *)
(** ** [AttendanceReport_alternate.py] (the data-frame pipeline) *)

Module AttendanceReportAlternate.

Import AttendanceReport.

(** A data-frame cell: a [Timestamp] never equals a [str]. *)
Inductive pyvalue := PyTimestamp (d : date) | PyStr (s : string).

Definition date_eqb (a b : date) : bool :=
  (d_year a =? d_year b) && (d_month a =? d_month b) && (d_day a =? d_day b).

Definition py_eq (a b : pyvalue) : bool :=
  match a, b with
  | PyTimestamp x, PyTimestamp y => date_eqb x y
  | PyStr x, PyStr y => String.eqb x y
  | _, _ => false
  end.

(** An attendance row once its [date] column went through [pd.to_datetime]. *)
Record frame_row := mk_frame_row {
  f_record_id : Z;
  f_date : date;
  f_clock_in : option string;
  f_clock_out : option string }.

(** A row once [check_employee_times] has replaced its clock columns by
    [.dt.time] values ([None] is [NaT]). *)
Record timed_row := mk_timed_row {
  tr_record_id : Z;
  tr_date : date;
  tr_clock_in : option time_of_day;
  tr_clock_out : option time_of_day }.

(** [pd.to_datetime] on a column of date strings (pandas 2): the format is
    inferred from the first value, an ISO date ['%Y-%m-%d'], and every value
    must then be such a date, zero-padded; the [datetime64[ns]] result only
    holds the days from 1677-09-22 to 2262-04-11, beyond which
    [OutOfBoundsDatetime] (a ValueError) is raised. *)
Definition iso_date_shape (s : string) : bool :=
  match list_ascii_of_string s with
  | [y1; y2; y3; y4; h1; m1; m2; h2; d1; d2] =>
      forallb (fun c => bool_decide (is_Some (digit_val c))) [y1; y2; y3; y4; m1; m2; d1; d2]
      && Ascii.eqb h1 "-" && Ascii.eqb h2 "-"
  | _ => false
  end.

Definition timestamp_min : date := mk_date 1677 9 22.
Definition timestamp_max : date := mk_date 2262 4 11.

Definition in_timestamp_range (d : date) : bool :=
  (toordinal timestamp_min <=? toordinal d) && (toordinal d <=? toordinal timestamp_max).

Definition to_datetime (s : string) : result date :=
  if iso_date_shape s then
    d <-- parse_date s ;;
    if in_timestamp_range d then Ok d else Err ValueError
  else Err ValueError.

Definition frame_row_of (a : attendance) : result frame_row :=
  d <-- to_datetime (att_date a) ;;
  Ok (mk_frame_row (employee_record_id a) d (clock_in a) (clock_out a)).

(** [df['date'] = pd.to_datetime(df['date'])] converts the whole column,
    then the rows of the employee and year are selected. *)
Definition get_employee_attendance_data (df : list attendance) (rid year : Z)
    : result (list frame_row) :=
  rows <-- rmap frame_row_of df ;;
  Ok (List.filter (fun r => (f_record_id r =? rid) && (d_year (f_date r) =? year)) rows).

(** [pd.to_datetime(v, format='%H:%M:%S').dt.time]: a missing value is [NaT]. *)
Definition to_time (v : option string) : result (option time_of_day) :=
  match v with
  | None => Ok None
  | Some s => t <-- of_option (strptime_time s) ValueError ;; Ok (Some t)
  end.

Definition timed_row_of (r : frame_row) : result timed_row :=
  ci <-- to_time (f_clock_in r) ;;
  co <-- to_time (f_clock_out r) ;;
  Ok (mk_timed_row (f_record_id r) (f_date r) ci co).

(** Object-column comparison: a [NaT] cell compares as [False]. *)
Definition cell_gt (c : option time_of_day) (t : time_of_day) : bool :=
  match c with Some x => time_lt t x | None => false end.
Definition cell_lt (c : option time_of_day) (t : time_of_day) : bool :=
  match c with Some x => time_lt x t | None => false end.
Definition is_na {A : Type} (c : option A) : bool :=
  match c with Some _ => false | None => true end.

(** Returns the converted employee frame (the caller's frame is mutated
    in place) and [pd.concat([delinquent_days, absent_days])]. A clock
    column that is entirely [NaT] in a non-empty frame is stored back as a
    [datetime64] column, and comparing it with a [datetime.time] raises
    TypeError. *)
Definition check_employee_times (df : list frame_row)
    : result (list timed_row * list timed_row) :=
  rows <-- rmap timed_row_of df ;;
  if negb (bool_decide (rows = [])) &&
     (forallb (fun r => is_na (tr_clock_in r)) rows
      || forallb (fun r => is_na (tr_clock_out r)) rows)
  then Err TypeError else
  let delinquent_days :=
    List.filter (fun r => cell_gt (tr_clock_in r) start_time
                     || cell_lt (tr_clock_out r) end_time) rows in
  let absent_days := List.filter (fun r => is_na (tr_clock_in r) || is_na (tr_clock_out r)) rows in
  Ok (rows, delinquent_days ++ absent_days).

(** Decimal digits of a non-negative number, and [strftime]'s [%m]/[%d]. *)
Fixpoint decimal_fuel (fuel : nat) (n : Z) (acc : string) : string :=
  match fuel with
  | O => acc
  | S f =>
      let acc' := String (ascii_of_nat (Z.to_nat (48 + n mod 10))) acc in
      if n <? 10 then acc' else decimal_fuel f (n / 10) acc'
  end.
Definition decimal (n : Z) : string := decimal_fuel 20 n EmptyString.
Definition pad2 (n : Z) : string := if n <? 10 then String "0" (decimal n) else decimal n.

(** [Timestamp.strftime('%Y.%m.%d')] *)
Definition strftime_dots (d : date) : string :=
  decimal (d_year d) ++ "." ++ pad2 (d_month d) ++ "." ++ pad2 (d_day d).

Record event_frame_row := mk_event_frame_row {
  ef_country : string;
  ef_event_date : date;
  ef_event_name : string }.

Definition event_frame_row_of (e : event) : result event_frame_row :=
  d <-- to_datetime (e_event_date e) ;;
  Ok (mk_event_frame_row (e_country e) d (e_event_name e)).

(** The events of the filtered frame inside [pd.date_range(d - 1, d + 1)]. *)
Definition event_rows_near (cntry : string) (filtered_events : list event_frame_row)
    (attendance_date : date) : list event_reason :=
  map (fun ev => mk_event_reason cntry (ef_event_name ev) (strftime_dots (ef_event_date ev)))
      (List.filter (fun ev => within_one_day (toordinal (ef_event_date ev) - toordinal attendance_date))
              filtered_events).

(** [pd.DataFrame([])] has no columns: [weather_df['country']] and
    [events_df['event_date']] raise KeyError on an empty list. *)
Definition check_dates_against_events (weather_df : list weather) (events_df : list event)
    (attendance_df : list timed_row) (cntry : string) : result (list event_reason) :=
  if bool_decide (weather_df = []) then Err KeyError else
  let filtered_weather_df :=
    List.filter (fun w => String.eqb (w_country w) cntry
                     && (bool_decide (condition w ∈ bad_weather_conditions)
                         || negb (Qle_bool (max_temp w) 40))) weather_df in
  let weather_dates := map (fun w => PyStr (w_date w)) filtered_weather_df in
  let common_dates :=
    List.filter (fun v => existsb (py_eq v) weather_dates)
           (map (fun r => PyTimestamp (tr_date r)) attendance_df) in
  let attendance_df' :=
    List.filter (fun r => negb (existsb (py_eq (PyTimestamp (tr_date r))) common_dates))
           attendance_df in
  if bool_decide (events_df = []) then Err KeyError else
  events <-- rmap event_frame_row_of events_df ;;
  let filtered_events_df :=
    List.filter (fun ev => String.eqb (ef_country ev) cntry && (d_year (ef_event_date ev) =? 2023))
           events in
  let event_info :=
    flat_map (fun r => event_rows_near cntry filtered_events_df (tr_date r)) attendance_df' in
  Ok (remove_duplicate_events event_info).

(** The [duration] column: [NaN] (a missing clock time) is filled with [0].
    [pd.to_datetime] of a [datetime.time] goes through [str] and gives the
    same time of day back. *)
Definition duration (r : timed_row) : Q :=
  match tr_clock_in r, tr_clock_out r with
  | Some ci, Some co => (inject_Z (seconds_of co - seconds_of ci) / 3600)%Q
  | _, _ => 0%Q
  end.

(** Adds [h] to the entry of week [k] of a list sorted by week. *)
Fixpoint sorted_add (k : Z) (h : Q) (d : list (Z * Q)) : list (Z * Q) :=
  match d with
  | [] => [(k, h)]
  | (k', v) :: rest =>
      if k' =? k then (k', (v + h)%Q) :: rest
      else if k <? k' then (k, h) :: d
      else (k', v) :: sorted_add k h rest
  end.

(** [groupby('week_number')['duration'].sum()]: one sum per week, the
    weeks in ascending order ([sort=True]); each group adds its rows in
    frame order. Float sums are taken as exact rationals. *)
Definition weekly_hours (attendance_df : list timed_row) : list (Z * Q) :=
  fold_left (fun d r => sorted_add (iso_week (tr_date r)) (duration r) d) attendance_df [].

(** [Series.mean()]: [nan] on an empty series. *)
Definition calculate_average_hours_per_week (attendance_df : list timed_row) : pyfloat :=
  let w := weekly_hours attendance_df in
  match length w with
  | O => NaN
  | n => Num (Qsum (map snd w) / inject_Z (Z.of_nat n))%Q
  end.

Definition process_employee (attendance_df : list attendance) (weather_df : list weather)
    (events_df : list event) (emp : employee) : result (option report) :=
  let cntry := country emp in
  emp_attendance_df <-- get_employee_attendance_data attendance_df (record_id emp) 2023 ;;
  p <-- check_employee_times emp_attendance_df ;;
  let (emp_attendance_timed, poor_employee_attendance_df) := p in
  events_cross_reference <--
    check_dates_against_events weather_df events_df poor_employee_attendance_df cntry ;;
  let average_hours_per_week := calculate_average_hours_per_week emp_attendance_timed in
  Ok (if 3 <? Z.of_nat (length events_cross_reference)
      then Some (mk_report emp average_hours_per_week events_cross_reference)
      else None).

Fixpoint analyze_data (employee_data : list employee) (attendance_df : list attendance)
    (weather_df : list weather) (events_df : list event) : result (list report) :=
  match employee_data with
  | [] => Ok []
  | emp :: rest =>
      o <-- process_employee attendance_df weather_df events_df emp ;;
      wayward_employees <-- analyze_data rest attendance_df weather_df events_df ;;
      Ok (match o with Some r => r :: wayward_employees | None => wayward_employees end)
  end.

End AttendanceReportAlternate.

(* ------------------------------------------------------------------ *)
(** ** The properties, in the words of the specification *)

Module SpecWords.

Import AttendanceReport.

(** A row is delinquent when both clock times are missing, or when both
    parse and the employee clocked in after 08:15:00 or out before 16:00:00. *)
Definition delinquent_row (a : attendance) : bool :=
  match clock_in a, clock_out a with
  | None, None => true
  | Some s1, Some s2 =>
      match strptime_time s1, strptime_time s2 with
      | Some ti, Some to =>
          (8 * 3600 + 15 * 60 <? seconds_of ti) || (seconds_of to <? 16 * 3600)
      | _, _ => false
      end
  | _, _ => false
  end.

(** A row the delinquency check can classify: both times missing, or both
    present and well-formed. *)
Definition classifiable_row (a : attendance) : Prop :=
  (clock_in a = None /\ clock_out a = None)
  \/ exists s1 s2 ti to, clock_in a = Some s1 /\ clock_out a = Some s2
                        /\ strptime_time s1 = Some ti /\ strptime_time s2 = Some to.

(** Exactly one of the two clock times is [null]. *)
Definition one_clock_missing (a : attendance) : Prop :=
  (clock_in a = None /\ clock_out a <> None) \/ (clock_in a <> None /\ clock_out a = None).

(** A severe-weather row for a country in 2023. *)
Definition severe_weather (cntry : string) (w : weather) : Prop :=
  w_country w = cntry /\ date_year_of (w_date w) = Ok 2023
  /\ (condition w ∈ bad_weather_conditions \/ (40 < max_temp w)%Q).

(** A qualifying event of a country: its date and name, in 2023. *)
Definition qualifying_event (cntry : string) (events_data : list event) (p : string * string) : Prop :=
  exists e, e ∈ events_data /\ p = (e_event_date e, e_event_name e)
            /\ e_country e = cntry /\ date_year_of (e_event_date e) = Ok 2023.

(** The first element of [l] carrying its event date. *)
Definition first_of_its_date (l : list event_reason) (e : event_reason) : Prop :=
  exists pre suf, l = pre ++ e :: suf /\ r_event_date e ∉ map r_event_date pre.

(** The elements of [l], in order, whose event date no earlier element of
    [l] carries: position [i] is kept iff the date is not among those of
    [take i l]. *)
Definition first_occurrences (l : list event_reason) : list event_reason :=
  map fst (List.filter
             (fun p => negb (bool_decide (r_event_date p.1 ∈ map r_event_date (take p.2 l))))
             (combine l (seq 0 (length l)))).

(** A row's duration in hours: [clock_out - clock_in] when both are
    present, [0] otherwise. *)
Definition row_duration (a : attendance) : option Q :=
  match clock_in a, clock_out a with
  | Some s1, Some s2 =>
      match strptime_time s1, strptime_time s2 with
      | Some ti, Some to => Some (inject_Z (seconds_of to - seconds_of ti) / 3600)%Q
      | _, _ => None
      end
  | _, _ => Some 0%Q
  end.

(** Belonging to an employee and a year. *)
Definition row_of_employee_in_year (rid year : Z) (a : attendance) : bool :=
  (employee_record_id a =? rid)
  && match date_year_of (att_date a) with Ok y => y =? year | Err _ => false end.

End SpecWords.

(* ------------------------------------------------------------------ *)
(** ** Sample data: the end-to-end scenario of the specification *)

Module Samples.

Open Scope string_scope.

Definition emp_us : employee := mk_employee 1 "Ann Lee" "W-001" "ann@example.com" "US" "555-0101".
Definition emp_idle : employee := mk_employee 2 "Bo Ng" "W-002" "bo@example.com" "US" "555-0102".

(** Five delinquent days in March 2023 (late, absent, early, late, early),
    one compliant day, and a row of another year. *)
Definition march_rows : list attendance :=
  [ mk_attendance 1 "2023-03-01" (Some "09:00:00") (Some "16:30:00");
    mk_attendance 1 "2023-03-08" None None;
    mk_attendance 1 "2023-03-15" (Some "08:00:00") (Some "15:00:00");
    mk_attendance 1 "2023-03-22" (Some "08:15:01") (Some "16:00:00");
    mk_attendance 1 "2023-03-29" (Some "08:15:00") (Some "15:59:59");
    mk_attendance 1 "2023-03-30" (Some "08:15:00") (Some "16:00:00") ].

Definition attendance_data : list attendance :=
  march_rows ++ [ mk_attendance 1 "2022-03-01" (Some "09:00:00") (Some "16:30:00") ].

(** A hurricane on the fifth delinquent day. *)
Definition weather_data : list weather :=
  [ mk_weather "US" "2023-03-29" "hurricane" 20;
    mk_weather "US" "2023-03-01" "sunny" 25;
    mk_weather "GB" "2023-03-08" "hail" 5 ].

(** Events next to the four unexplained days, one next to the excused
    day, and one in another country. *)
Definition events_data : list event :=
  [ mk_event "US" "2023-02-28" "Parade";
    mk_event "US" "2023-03-09" "Fair";
    mk_event "US" "2023-03-15" "Concert";
    mk_event "US" "2023-03-21" "Festival";
    mk_event "US" "2023-03-28" "Regatta";
    mk_event "GB" "2023-03-01" "Derby" ].

(** The durations (in hours) and dates of [march_rows]. *)
Definition march_hours : list Q :=
  [27000 # 3600; 0; 25200 # 3600; 27899 # 3600; 27899 # 3600; 27900 # 3600]%Q.

Definition march_dates : list date :=
  [mk_date 2023 3 1; mk_date 2023 3 8; mk_date 2023 3 15; mk_date 2023 3 22;
   mk_date 2023 3 29; mk_date 2023 3 30].

(** The delinquent dates of [march_rows]. *)
Definition march_delinquent : list string :=
  ["2023-03-01"; "2023-03-08"; "2023-03-15"; "2023-03-22"; "2023-03-29"].

(** A row with a clock-in time and no clock-out time. *)
Definition half_row : attendance := mk_attendance 1 "2023-04-03" (Some "08:00:00") None.

End Samples.

(* ------------------------------------------------------------------ *)
(** ** Deduplication of the candidate events *)

Module DedupFacts.

Import AttendanceReport SpecWords.

Lemma elem_of_map_2 {A B : Type} (f : A -> B) (l : list A) (x : A) :
  x ∈ l -> f x ∈ map f l.
Proof. rewrite !list_elem_of_In. apply in_map. Qed.

Lemma remove_duplicate_events_loop_spec (unique_dates : list string) (l : list event_reason) :
  let out := remove_duplicate_events_loop unique_dates l in
  sublist out l
  /\ NoDup (map r_event_date out)
  /\ (forall d, d ∈ map r_event_date out <-> d ∈ map r_event_date l /\ d ∉ unique_dates)
  /\ (forall e, e ∈ out -> first_of_its_date l e).
Proof.
  revert unique_dates; induction l as [|ev rest IH]; intros seen; simpl.
  - split; [constructor|]. split; [constructor|]. split.
    + intros d; split; [intros Hd; inversion Hd | intros [Hd _]; inversion Hd].
    + intros e He; inversion He.
  - case_bool_decide as Hin.
    + destruct (IH seen) as (Hsub & Hnd & Hmem & Hfirst).
      split; [by apply sublist_cons|]. split; [done|]. split.
      * intros d. rewrite Hmem. split.
        -- intros [? ?]; split; [by right|done].
        -- intros [Hd Hns]. inversion Hd; subst; [contradiction|done].
      * intros e He. destruct (Hfirst e He) as (pre & suf & -> & Hnot).
        exists (ev :: pre), suf. split; [done|].
        simpl. intros Hd. apply elem_of_cons in Hd as [Heq|Hd]; [|contradiction].
        assert (r_event_date e ∈ map r_event_date
                  (remove_duplicate_events_loop seen (pre ++ e :: suf))) as Hm.
        { by apply elem_of_map_2. }
        apply Hmem in Hm as [_ Hm]. rewrite Heq in Hm. contradiction.
    + destruct (IH (r_event_date ev :: seen)) as (Hsub & Hnd & Hmem & Hfirst).
      split; [by apply sublist_skip|]. split.
      * simpl. constructor; [|done].
        intros Hd. apply Hmem in Hd as [_ Hd]. apply Hd. left.
      * split.
        -- intros d. simpl. rewrite elem_of_cons, Hmem, elem_of_cons, elem_of_cons.
           split.
           ++ intros [->|[Hd Hns]]; [split; [by left|done]|].
              split; [by right|]. intros Hs; apply Hns; by right.
           ++ intros [[->|Hd] Hns]; [by left|].
              destruct (decide (d = r_event_date ev)) as [->|Hne]; [by left|].
              right. split; [done|]. intros [Heq|Hs]; [done|contradiction].
        -- intros e He. apply elem_of_cons in He as [->|He].
           ++ exists [], rest. split; [done|]. simpl. intros Hd; inversion Hd.
           ++ destruct (Hfirst e He) as (pre & suf & -> & Hnot).
              exists (ev :: pre), suf. split; [done|].
              simpl. intros Hd. apply elem_of_cons in Hd as [Heq|Hd]; [|contradiction].
              assert (r_event_date e ∈ map r_event_date
                        (remove_duplicate_events_loop (r_event_date ev :: seen)
                           (pre ++ e :: suf))) as Hm.
              { by apply elem_of_map_2. }
              apply Hmem in Hm as [_ Hm]. apply Hm. rewrite Heq. left.
Qed.

Lemma remove_duplicate_events_loop_positions (full : list event_reason) :
  forall l seen k,
  (forall d, d ∈ seen <-> d ∈ map r_event_date (take k full)) ->
  drop k full = l ->
  remove_duplicate_events_loop seen l
  = map fst (List.filter
               (fun p => negb (bool_decide (r_event_date p.1 ∈ map r_event_date (take p.2 full))))
               (combine l (seq k (length l)))).
Proof.
  induction l as [|e rest IH]; intros seen k Hseen Hdrop; [done|].
  assert (Hk : full !! k = Some e).
  { rewrite <- (Nat.add_0_r k), <- lookup_drop, Hdrop. done. }
  assert (Hrest : drop (S k) full = rest).
  { rewrite (drop_S full e k Hk) in Hdrop. by injection Hdrop. }
  assert (Htake : take (S k) full = take k full ++ [e]) by (by apply take_S_r).
  simpl. destruct (decide (r_event_date e ∈ seen)) as [Hin|Hin].
  - rewrite !bool_decide_true by (by rewrite <- ?Hseen). simpl.
    apply IH; [|done]. intros d. rewrite Htake, map_app, elem_of_app, <- Hseen. simpl.
    rewrite list_elem_of_singleton. split; [tauto|]. intros [?| ->]; done.
  - rewrite !bool_decide_false by (by rewrite <- ?Hseen). simpl.
    f_equal. apply IH; [|done]. intros d. rewrite Htake, map_app, elem_of_app, <- Hseen.
    simpl. rewrite list_elem_of_singleton, elem_of_cons. tauto.
Qed.

End DedupFacts.

(* ------------------------------------------------------------------ *)
(** ** Selecting an employee's rows for a year *)

Module SelectFacts.

Import AttendanceReport SpecWords.

Lemma get_employee_attendance_data_iff (rid year : Z) (rows out : list attendance) :
  get_employee_attendance_data rid rows year = Ok out <->
  (forall a, a ∈ rows -> employee_record_id a = rid -> exists y, date_year_of (att_date a) = Ok y)
  /\ out = List.filter (row_of_employee_in_year rid year) rows.
Proof.
  revert out; induction rows as [|a rest IH]; intros out; simpl.
  - split.
    + intros [= <-]. split; [intros a Ha; inversion Ha|done].
    + intros [_ ->]. done.
  - unfold row_of_employee_in_year at 1.
    destruct (Z.eqb_spec (employee_record_id a) rid) as [Hid|Hid]; simpl.
    + unfold check_if_date_is_in_year.
      destruct (date_year_of (att_date a)) as [y|e] eqn:Hy; simpl.
      * destruct (get_employee_attendance_data rid rest year) as [ed|e] eqn:Hrest; simpl.
        -- destruct (proj1 (IH ed) eq_refl) as [Hall ->]. split.
           ++ intros [= <-]. split; [|done].
              intros b Hb Hbid. apply elem_of_cons in Hb as [->|Hb]; eauto.
           ++ intros [_ ->]. done.
        -- split; [discriminate|]. intros [Hall _]. exfalso.
           assert (@Err (list attendance) e
                   = Ok (List.filter (row_of_employee_in_year rid year) rest)) as Hok.
           { apply IH. split; [|done]. intros b Hb. apply Hall. by right. }
           discriminate.
      * split; [discriminate|]. intros [Hall _].
        destruct (Hall a (list_elem_of_here _ _) Hid) as [y Hy']. congruence.
    + rewrite IH. split.
      * intros [Hall ->]. split; [|done].
        intros b Hb Hbid. apply elem_of_cons in Hb as [->|Hb]; [contradiction|eauto].
      * intros [Hall ->]. split; [|done]. intros b Hb. apply Hall. by right.
Qed.

Lemma get_employee_attendance_data_sub (rid year : Z) (rows out : list attendance) (a : attendance) :
  get_employee_attendance_data rid rows year = Ok out ->
  a ∈ out <-> a ∈ rows /\ row_of_employee_in_year rid year a = true.
Proof.
  intros H. apply get_employee_attendance_data_iff in H as [_ ->].
  rewrite !list_elem_of_In, filter_In. done.
Qed.

End SelectFacts.

(* ------------------------------------------------------------------ *)
(** ** Parsed clock times and the delinquency check *)

Module TimeFacts.

Import AttendanceReport SpecWords.

Lemma digit_val_range (c : ascii) (d : Z) : digit_val c = Some d -> 0 <= d <= 9.
Proof.
  unfold digit_val. destruct ((48 <=? _) && _) eqn:H; [|discriminate].
  intros [= <-]. apply andb_true_iff in H as [H1 H2].
  apply Z.leb_le in H1. apply Z.leb_le in H2. lia.
Qed.

Lemma digits_acc_nonneg (s : string) : forall acc v,
  0 <= acc -> digits_acc acc s = Some v -> 0 <= v.
Proof.
  induction s as [|c rest IH]; intros acc v Hacc; simpl.
  - intros [= <-]. done.
  - destruct (digit_val c) as [d|] eqn:Hd; [|discriminate].
    apply digit_val_range in Hd. apply IH. lia.
Qed.

Lemma short_field_nonneg (s : string) (v : Z) : short_field s = Some v -> 0 <= v.
Proof.
  unfold short_field, digits_val. destruct (_ && _); [|discriminate].
  destruct s; [discriminate|]. apply digits_acc_nonneg. lia.
Qed.

Lemma strptime_time_range (s : string) (t : time_of_day) :
  strptime_time s = Some t ->
  0 <= t_hour t <= 23 /\ 0 <= t_minute t <= 59 /\ 0 <= t_second t <= 59.
Proof.
  unfold strptime_time.
  destruct (py_split ":" s) as [|hs [|ms [|ss [|]]]]; try discriminate.
  destruct (short_field hs) as [h|] eqn:Hh; [|discriminate].
  destruct (short_field ms) as [m|] eqn:Hm; [|discriminate].
  destruct (short_field ss) as [sec|] eqn:Hs; [|discriminate].
  apply short_field_nonneg in Hh, Hm, Hs.
  destruct ((h <=? 23) && (m <=? 59) && (sec <=? 59)) eqn:Hb; [|discriminate].
  intros [= <-]. simpl.
  apply andb_true_iff in Hb as [Hb H3]. apply andb_true_iff in Hb as [H1 H2].
  apply Z.leb_le in H1, H2, H3. lia.
Qed.

Lemma time_lt_seconds (a b : time_of_day) :
  0 <= t_hour a -> 0 <= t_minute a <= 59 -> 0 <= t_second a <= 59 ->
  0 <= t_hour b -> 0 <= t_minute b <= 59 -> 0 <= t_second b <= 59 ->
  time_lt a b = (seconds_of a <? seconds_of b).
Proof.
  destruct a as [h1 m1 s1], b as [h2 m2 s2]; unfold time_lt, seconds_of; simpl; intros.
  destruct (Z.ltb_spec (h1 * 3600 + m1 * 60 + s1) (h2 * 3600 + m2 * 60 + s2));
  destruct (Z.ltb_spec h1 h2); destruct (Z.eqb_spec h1 h2);
  destruct (Z.ltb_spec m1 m2); destruct (Z.eqb_spec m1 m2);
  destruct (Z.ltb_spec s1 s2); simpl; try reflexivity; lia.
Qed.

(** The two tests of [check_employee_times] on parsed times. *)
Lemma late_or_early_seconds (s1 s2 : string) (ti to : time_of_day) :
  strptime_time s1 = Some ti -> strptime_time s2 = Some to ->
  time_lt start_time ti || time_lt to end_time
  = (8 * 3600 + 15 * 60 <? seconds_of ti) || (seconds_of to <? 16 * 3600).
Proof.
  intros H1 H2. apply strptime_time_range in H1 as (? & ? & ?).
  apply strptime_time_range in H2 as (? & ? & ?).
  rewrite !time_lt_seconds by (simpl; lia). reflexivity.
Qed.

Lemma check_employee_times_iff (rows : list attendance) (ds : list string) :
  check_employee_times rows = Ok ds <->
  (forall a, a ∈ rows -> classifiable_row a)
  /\ ds = map att_date (List.filter delinquent_row rows).
Proof.
  revert ds; induction rows as [|a rest IH]; intros ds; simpl.
  - split; [intros [= <-]; split; [intros a Ha; inversion Ha|done]|].
    intros [_ ->]. done.
  - assert (Hcons : forall P : attendance -> Prop,
              (forall b, b ∈ a :: rest -> P b) <-> P a /\ (forall b, b ∈ rest -> P b)).
    { intros P. split.
      - intros H. split; [apply H; left|intros b Hb; apply H; by right].
      - intros [Ha H] b Hb. apply elem_of_cons in Hb as [->|Hb]; auto. }
    rewrite Hcons. unfold delinquent_row at 1, classifiable_row at 1.
    destruct (clock_in a) as [s1|] eqn:Hi; destruct (clock_out a) as [s2|] eqn:Ho; simpl.
    + destruct (strptime_time s1) as [ti|] eqn:H1; simpl.
      * destruct (strptime_time s2) as [to|] eqn:H2; simpl.
        -- rewrite (late_or_early_seconds s1 s2 ti to H1 H2).
           destruct (check_employee_times rest) as [dr|e] eqn:Hrest; simpl.
           ++ destruct (proj1 (IH dr) eq_refl) as [Hall ->].
              split.
              ** intros [= <-]. split; [split; [right; eauto 8|done]|].
                 destruct (_ || _); done.
              ** intros [_ ->]. destruct (_ || _); done.
           ++ split; [discriminate|]. intros [[_ Hall] Hds]. exfalso.
              assert (@Err (list string) e = Ok (map att_date (List.filter delinquent_row rest)))
                by (apply IH; done).
              discriminate.
        -- split; [discriminate|]. intros [[[[? ?]|(x1 & x2 & t1 & t2 & E1 & E2 & P1 & P2)] _] _];
             [discriminate|]. injection E2 as <-. congruence.
      * split; [discriminate|]. intros [[[[? ?]|(x1 & x2 & t1 & t2 & E1 & E2 & P1 & P2)] _] _];
          [discriminate|]. injection E1 as <-. congruence.
    + destruct (strptime_time s1); simpl; (split; [discriminate|]);
        intros [[[[? ?]|(x1 & x2 & t1 & t2 & E1 & E2 & P1 & P2)] _] _]; discriminate.
    + split; [discriminate|].
      intros [[[[? ?]|(x1 & x2 & t1 & t2 & E1 & E2 & P1 & P2)] _] _]; discriminate.
    + destruct (check_employee_times rest) as [dr|e] eqn:Hrest; simpl.
      * destruct (proj1 (IH dr) eq_refl) as [Hall ->]. split.
        -- intros [= <-]. split; [split; [left; done|done]|done].
        -- intros [_ ->]. done.
      * split; [discriminate|]. intros [[_ Hall] _]. exfalso.
        assert (@Err (list string) e = Ok (map att_date (List.filter delinquent_row rest)))
          by (apply IH; done).
        discriminate.
Qed.

End TimeFacts.

(* ------------------------------------------------------------------ *)
(** ** How a failing employee stops the whole run *)

Module RunFacts.

Import AttendanceReport SpecWords.

Lemma identify_err_of_process_err enum_dates enum_events (employee_data : list employee)
    attendance_data weather_data events_data (emp : employee) (e : pyexc) :
  emp ∈ employee_data ->
  process_employee enum_dates enum_events attendance_data weather_data events_data emp = Err e ->
  exists e', identify_delinquent_employees enum_dates enum_events employee_data
               attendance_data weather_data events_data = Err e'.
Proof.
  intros Hin He. induction employee_data as [|x rest IH]; [inversion Hin|]. simpl.
  apply elem_of_cons in Hin as [->|Hin].
  - rewrite He. eauto.
  - destruct (process_employee _ _ _ _ _ x) as [o|e0]; simpl; [|eauto].
    destruct (IH Hin) as [e' ->]. simpl. eauto.
Qed.

Lemma check_employee_times_err_of_missing (rows : list attendance) (a : attendance) :
  a ∈ rows -> one_clock_missing a -> exists e, check_employee_times rows = Err e.
Proof.
  intros Hin Hm. destruct (check_employee_times rows) as [ds|e] eqn:H; [|eauto].
  apply TimeFacts.check_employee_times_iff in H as [Hall _].
  destruct (Hall a Hin) as [[H1 H2]|(s1 & s2 & ti & to & H1 & H2 & _)];
    destruct Hm as [[Hm1 Hm2]|[Hm1 Hm2]]; congruence.
Qed.

End RunFacts.

(* ------------------------------------------------------------------ *)
(** ** The weekly dictionary of [calculate_average_hours_per_week] *)

Module WeekFacts.

Import AttendanceReport SpecWords.

Lemma Qsum_dict_add (k : Z) (h : Q) (d : list (Z * Q)) :
  (Qsum (map snd (dict_add k h d)) == Qsum (map snd d) + h)%Q.
Proof.
  induction d as [|[k' v] rest IH]; simpl.
  - ring.
  - destruct (k' =? k); simpl.
    + ring.
    + rewrite IH. ring.
Qed.

Lemma keys_dict_add (k : Z) (h : Q) (d : list (Z * Q)) (x : Z) :
  x ∈ map fst (dict_add k h d) <-> x = k \/ x ∈ map fst d.
Proof.
  induction d as [|[k' v] rest IH]; simpl.
  - rewrite elem_of_cons. split; [intros [->|Hx]; [by left|inversion Hx]|].
    intros [->|Hx]; [by left|inversion Hx].
  - destruct (Z.eqb_spec k' k) as [->|Hne]; simpl; rewrite !elem_of_cons.
    + tauto.
    + rewrite IH. tauto.
Qed.

Lemma NoDup_keys_dict_add (k : Z) (h : Q) (d : list (Z * Q)) :
  NoDup (map fst d) -> NoDup (map fst (dict_add k h d)).
Proof.
  induction d as [|[k' v] rest IH]; simpl; intros Hnd.
  - constructor; [intros Hx; inversion Hx|constructor].
  - inversion Hnd as [|? ? Hnot Hnd']; subst.
    destruct (Z.eqb_spec k' k) as [->|Hne]; simpl.
    + by constructor.
    + constructor; [|by apply IH].
      rewrite keys_dict_add. intros [->|Hx]; [done|contradiction].
Qed.

Lemma row_hours_duration (a : attendance) (h : Q) :
  row_duration a = Some h -> row_hours a = Ok h.
Proof.
  unfold row_duration, row_hours, calculate_total_hours.
  destruct (clock_in a), (clock_out a); try (intros [= <-]; done).
  destruct (strptime_time s), (strptime_time s0); simpl; try discriminate.
  intros [= <-]. done.
Qed.

Lemma accumulate_weeks_ok (rows : list attendance) (hours : list Q) (dates : list date) :
  Forall2 (fun a h => row_duration a = Some h) rows hours ->
  Forall2 (fun a d => strptime_date (att_date a) = Some d) rows dates ->
  forall acc, exists d,
    accumulate_weeks acc rows = Ok d
    /\ (Qsum (map snd d) == Qsum (map snd acc) + Qsum hours)%Q
    /\ (forall x, x ∈ map fst d <-> x ∈ map fst acc \/ x ∈ map iso_week dates)
    /\ (NoDup (map fst acc) -> NoDup (map fst d)).
Proof.
  intros Hh. revert dates. induction Hh as [|a h rows hours Ha Hh IH];
    intros dates Hd acc; inversion Hd as [|? dt ? dates' Hdt Hd']; subst; simpl.
  - exists acc. split; [done|]. split; [simpl; ring|]. split; [|done].
    intros x. split; [by left|]. intros [Hx|Hx]; [done|inversion Hx].
  - rewrite (row_hours_duration a h Ha). simpl. unfold parse_date. rewrite Hdt. simpl.
    destruct (IH dates' Hd' (dict_add (iso_week dt) h acc)) as (d & Hacc & Hsum & Hkeys & Hnd).
    exists d. split; [done|]. split.
    + rewrite Hsum, Qsum_dict_add. simpl. ring.
    + split.
      * intros x. rewrite Hkeys, keys_dict_add, elem_of_cons. tauto.
      * intros Hnd0. apply Hnd. by apply NoDup_keys_dict_add.
Qed.

End WeekFacts.

(* ------------------------------------------------------------------ *)
(** ** Weather exclusion and event correlation *)

Module EventFacts.

Import AttendanceReport SpecWords.

Lemma within_one_day_true (difference : Z) :
  within_one_day difference = true <-> difference = -1 \/ difference = 0 \/ difference = 1.
Proof.
  unfold within_one_day. rewrite bool_decide_eq_true, !elem_of_cons.
  split; [intros [?|[?|[?|Hx]]]; [tauto|tauto|tauto|inversion Hx]|tauto].
Qed.

Lemma severe_keep (cntry : string) (w : weather) (y : Z) :
  date_year_of (w_date w) = Ok y ->
  (y =? 2023) && (bool_decide (condition w ∈ bad_weather_conditions)
                  || negb (Qle_bool (max_temp w) 40)) = true
  <-> y = 2023 /\ (condition w ∈ bad_weather_conditions \/ (40 < max_temp w)%Q).
Proof.
  intros _. rewrite andb_true_iff, orb_true_iff, Z.eqb_eq, bool_decide_eq_true, negb_true_iff.
  assert (Qle_bool (max_temp w) 40 = false <-> (40 < max_temp w)%Q) as ->; [|tauto].
  split.
  - intros H. apply Qnot_le_lt. intros Hle. apply Qle_bool_iff in Hle. congruence.
  - intros H. destruct (Qle_bool (max_temp w) 40) eqn:E; [|done].
    apply Qle_bool_iff in E. exfalso. apply (Qlt_not_le _ _ H E).
Qed.

Lemma weather_set_of_spec (weather_data : list weather) (cntry : string) (ws : list string) :
  weather_set_of weather_data cntry = Ok ws ->
  forall d, d ∈ ws <-> exists w, w ∈ weather_data /\ d = w_date w /\ severe_weather cntry w.
Proof.
  revert ws; induction weather_data as [|w rest IH]; intros ws; simpl.
  - intros [= <-] d. split; [intros Hd; inversion Hd|intros (w & Hw & _); inversion Hw].
  - destruct (String.eqb_spec (w_country w) cntry) as [Hc|Hc]; simpl.
    + unfold check_if_date_is_in_year.
      destruct (date_year_of (w_date w)) as [y|e] eqn:Hy; simpl; [|discriminate].
      destruct (weather_set_of rest cntry) as [others|e] eqn:Hr; simpl; [|discriminate].
      intros [= <-] d. pose proof (IH others eq_refl d) as IHd.
      assert (Hsev : severe_weather cntry w <->
                     (y =? 2023) && (bool_decide (condition w ∈ bad_weather_conditions)
                                     || negb (Qle_bool (max_temp w) 40)) = true).
      { rewrite (severe_keep cntry w y Hy). unfold severe_weather. rewrite Hy.
        split; [intros (_ & [= ->] & H); done|intros [-> H]; done]. }
      destruct (_ && _) eqn:Hk.
      * rewrite elem_of_cons, IHd. split.
        -- intros [->|(w' & Hw' & -> & Hs)]; [exists w; split; [left|]; split; [done|by apply Hsev]|].
           exists w'. split; [by right|done].
        -- intros (w' & Hw' & -> & Hs). apply elem_of_cons in Hw' as [->|Hw']; [by left|].
           right. eauto.
      * rewrite IHd. split.
        -- intros (w' & Hw' & -> & Hs). exists w'. split; [by right|done].
        -- intros (w' & Hw' & -> & Hs). apply elem_of_cons in Hw' as [->|Hw'].
           ++ apply Hsev in Hs. congruence.
           ++ eauto.
    + destruct (weather_set_of rest cntry) as [others|e] eqn:Hr; simpl; [|discriminate].
      intros [= <-] d. rewrite (IH others eq_refl d). split.
      * intros (w' & Hw' & -> & Hs). exists w'. split; [by right|done].
      * intros (w' & Hw' & -> & Hs). apply elem_of_cons in Hw' as [->|Hw'].
        -- destruct Hs as [Hs _]. contradiction.
        -- eauto.
Qed.

Lemma event_set_of_spec (events_data : list event) (cntry : string) (es : list (string * string)) :
  event_set_of events_data cntry = Ok es ->
  forall p, p ∈ es <-> qualifying_event cntry events_data p.
Proof.
  revert es; induction events_data as [|e rest IH]; intros es; simpl.
  - intros [= <-] p. split; [intros Hp; inversion Hp|intros (e & He & _); inversion He].
  - unfold qualifying_event in *.
    destruct (String.eqb_spec (e_country e) cntry) as [Hc|Hc]; simpl.
    + unfold check_if_date_is_in_year.
      destruct (date_year_of (e_event_date e)) as [y|x] eqn:Hy; simpl; [|discriminate].
      destruct (event_set_of rest cntry) as [others|x] eqn:Hr; simpl; [|discriminate].
      intros [= <-] p. pose proof (IH others eq_refl p) as IHp.
      destruct (Z.eqb_spec y 2023) as [->|Hne].
      * rewrite elem_of_cons, IHp. split.
        -- intros [->|(e' & He' & -> & H1 & H2)]; [exists e; split; [left|done]|].
           exists e'. split; [by right|done].
        -- intros (e' & He' & -> & H1 & H2). apply elem_of_cons in He' as [->|He']; [by left|].
           right. eauto.
      * rewrite IHp. split.
        -- intros (e' & He' & -> & H1 & H2). exists e'. split; [by right|done].
        -- intros (e' & He' & -> & H1 & H2). apply elem_of_cons in He' as [->|He'].
           ++ congruence.
           ++ eauto.
    + destruct (event_set_of rest cntry) as [others|x] eqn:Hr; simpl; [|discriminate].
      intros [= <-] p. rewrite (IH others eq_refl p). split.
      * intros (e' & He' & -> & H1 & H2). exists e'. split; [by right|done].
      * intros (e' & He' & -> & H1 & H2). apply elem_of_cons in He' as [->|He'].
        -- contradiction.
        -- eauto.
Qed.

End EventFacts.

Module NearFacts.

Import AttendanceReport SpecWords.

Lemma events_near_spec (cntry : string) (dd : date) (event_list : list (string * string))
    (l : list event_reason) :
  events_near cntry dd event_list = Ok l ->
  forall c, c ∈ l <-> exists ed en edd, (ed, en) ∈ event_list
    /\ strptime_date ed = Some edd /\ c = mk_event_reason cntry en ed
    /\ within_one_day (toordinal edd - toordinal dd) = true.
Proof.
  revert l; induction event_list as [|[ed en] rest IH]; intros l; simpl.
  - intros [= <-] c. split; [intros Hc; inversion Hc|intros (? & ? & ? & Hx & _); inversion Hx].
  - unfold parse_date. destruct (strptime_date ed) as [edd|] eqn:Hed; simpl; [|discriminate].
    destruct (events_near cntry dd rest) as [later|x] eqn:Hr; simpl; [|discriminate].
    intros [= <-] c. pose proof (IH later eq_refl c) as IHc.
    destruct (within_one_day (toordinal edd - toordinal dd)) eqn:Hw.
    + rewrite elem_of_cons, IHc. split.
      * intros [->|(ed' & en' & edd' & Hin & H1 & H2 & H3)].
        -- exists ed, en, edd. split; [left|done].
        -- exists ed', en', edd'. split; [by right|done].
      * intros (ed' & en' & edd' & Hin & H1 & H2 & H3).
        apply elem_of_cons in Hin as [[= -> ->]|Hin]; [by left|].
        right. exists ed', en', edd'. done.
    + rewrite IHc. split.
      * intros (ed' & en' & edd' & Hin & H1 & H2 & H3).
        exists ed', en', edd'. split; [by right|done].
      * intros (ed' & en' & edd' & Hin & H1 & H2 & H3).
        apply elem_of_cons in Hin as [[= -> ->]|Hin].
        -- rewrite Hed in H1. injection H1 as <-. congruence.
        -- exists ed', en', edd'. done.
Qed.

Lemma event_reasons_split (cntry : string) (event_list : list (string * string))
    (dates : list string) (cands : list event_reason) :
  event_reasons cntry event_list dates = Ok cands ->
  exists per_date,
    Forall2 (fun D cs => exists dd, strptime_date D = Some dd
                                   /\ events_near cntry dd event_list = Ok cs) dates per_date
    /\ cands = concat per_date.
Proof.
  revert cands; induction dates as [|D rest IH]; intros cands; simpl.
  - intros [= <-]. exists []. split; [constructor|done].
  - unfold parse_date. destruct (strptime_date D) as [dd|] eqn:HD; simpl; [|discriminate].
    destruct (events_near cntry dd event_list) as [here|x] eqn:Hh; simpl; [|discriminate].
    destruct (event_reasons cntry event_list rest) as [later|x] eqn:Hl; simpl; [|discriminate].
    intros [= <-]. destruct (IH later eq_refl) as (per & Hper & ->).
    exists (here :: per). split; [constructor; eauto|done].
Qed.

End NearFacts.

Module PipelineFacts.

Import AttendanceReport SpecWords.

Lemma set_difference_spec (xs ys : list string) (d : string) :
  d ∈ set_difference xs ys <-> d ∈ xs /\ d ∉ ys.
Proof.
  unfold set_difference. rewrite !list_elem_of_In, filter_In, negb_true_iff.
  rewrite bool_decide_eq_false, list_elem_of_In. tauto.
Qed.

Lemma check_dates_against_events_unfold enum_dates enum_events weather_data events_data
    poor cntry out :
  check_dates_against_events enum_dates enum_events weather_data events_data poor cntry = Ok out ->
  exists ws es cands,
    weather_set_of weather_data cntry = Ok ws
    /\ event_set_of events_data cntry = Ok es
    /\ event_reasons cntry (enum_events es) (no_weather_excuse enum_dates poor ws) = Ok cands
    /\ out = remove_duplicate_events cands.
Proof.
  unfold check_dates_against_events.
  destruct (weather_set_of weather_data cntry) as [ws|x]; simpl; [|discriminate].
  destruct (event_set_of events_data cntry) as [es|x]; simpl; [|discriminate].
  destruct (event_reasons _ _ _) as [cands|x] eqn:Hc; simpl; [|discriminate].
  intros [= <-]. exists ws, es, cands. done.
Qed.

Lemma process_employee_ok enum_dates enum_events attendance_data weather_data events_data
    (emp : employee) (o : option report) :
  process_employee enum_dates enum_events attendance_data weather_data events_data emp = Ok o ->
  exists ead poor evs avg,
    get_employee_attendance_data (record_id emp) attendance_data 2023 = Ok ead
    /\ check_employee_times ead = Ok poor
    /\ check_dates_against_events enum_dates enum_events weather_data events_data poor
         (country emp) = Ok evs
    /\ calculate_average_hours_per_week ead = Ok avg
    /\ o = (if 3 <? Z.of_nat (length evs) then Some (mk_report emp (Num avg) evs) else None).
Proof.
  unfold process_employee.
  destruct (get_employee_attendance_data _ _ _) as [ead|x] eqn:H1; simpl; [|discriminate].
  destruct (check_employee_times ead) as [poor|x] eqn:H2; simpl; [|discriminate].
  destruct (check_dates_against_events _ _ _ _ _ _) as [evs|x] eqn:H3; simpl; [|discriminate].
  destruct (calculate_average_hours_per_week ead) as [avg|x] eqn:H4; simpl; [|discriminate].
  intros [= <-]. exists ead, poor, evs, avg. done.
Qed.

Lemma identify_ok enum_dates enum_events (employee_data : list employee) attendance_data
    weather_data events_data (reps : list report) :
  identify_delinquent_employees enum_dates enum_events employee_data attendance_data
    weather_data events_data = Ok reps ->
  (forall r, r ∈ reps -> exists emp, emp ∈ employee_data
     /\ process_employee enum_dates enum_events attendance_data weather_data events_data emp
        = Ok (Some r))
  /\ (forall emp, emp ∈ employee_data -> exists o,
        process_employee enum_dates enum_events attendance_data weather_data events_data emp = Ok o
        /\ forall r, o = Some r -> r ∈ reps).
Proof.
  revert reps; induction employee_data as [|emp0 rest IH]; intros reps; simpl.
  - intros [= <-]. split; intros x Hx; inversion Hx.
  - destruct (process_employee _ _ _ _ _ emp0) as [o|x] eqn:Hp; simpl; [|discriminate].
    destruct (identify_delinquent_employees _ _ rest _ _ _) as [reps'|x]; simpl; [|discriminate].
    intros [= <-]. destruct (IH reps' eq_refl) as [H1 H2]. split.
    + intros r Hr. destruct o as [r0|].
      * apply elem_of_cons in Hr as [->|Hr].
        -- exists emp0. split; [left|done].
        -- destruct (H1 r Hr) as (emp & ? & ?). exists emp. split; [by right|done].
      * destruct (H1 r Hr) as (emp & ? & ?). exists emp. split; [by right|done].
    + intros emp Hemp. apply elem_of_cons in Hemp as [->|Hemp].
      * exists o. split; [done|]. intros r ->. left.
      * destruct (H2 emp Hemp) as (o' & Ho' & Hin). exists o'. split; [done|].
        intros r Hr. specialize (Hin r Hr). destruct o; [by right|done].
Qed.

End PipelineFacts.

(* ------------------------------------------------------------------ *)
(** ** The claims *)

Module Claims.

Import AttendanceReport SpecWords.

(** C1: [check_employee_times] records the date of a row exactly when both
    clock times are missing, or both parse and the employee clocked in
    after 08:15:00 or out before 16:00:00; a row with both times present,
    in at or before 08:15:00 and out at or after 16:00:00 is not recorded.
    It succeeds exactly on lists of such classifiable rows. *)
Theorem check_employee_times_classifies (rows : list attendance) (ds : list string) :
  check_employee_times rows = Ok ds <->
  (forall a, a ∈ rows -> classifiable_row a)
  /\ ds = map att_date (List.filter delinquent_row rows).
Proof. apply TimeFacts.check_employee_times_iff. Qed.

(** C2: the severe-weather dates of [check_dates_against_events] are the
    dates of the weather rows of the country, in 2023, with a bad condition
    or a maximum above 40; the unexplained delinquent dates are the
    delinquent dates not in that set; and these are what the event
    correlation runs on. *)
Theorem severe_weather_set_difference enum_dates
    (Henum : forall l x, x ∈ enum_dates l <-> x ∈ l)
    (weather_data : list weather) (cntry : string) (weather_set poor : list string) :
  weather_set_of weather_data cntry = Ok weather_set ->
  (forall d, d ∈ weather_set <->
     exists w, w ∈ weather_data /\ d = w_date w /\ severe_weather cntry w)
  /\ (forall d, d ∈ no_weather_excuse enum_dates poor weather_set <-> d ∈ poor /\ d ∉ weather_set)
  /\ (forall enum_events events_data out,
        check_dates_against_events enum_dates enum_events weather_data events_data poor cntry
        = Ok out ->
        exists es cands, event_set_of events_data cntry = Ok es
          /\ event_reasons cntry (enum_events es) (no_weather_excuse enum_dates poor weather_set)
             = Ok cands
          /\ out = remove_duplicate_events cands).
Proof.
  intros Hws. split; [|split].
  - by apply EventFacts.weather_set_of_spec.
  - intros d. unfold no_weather_excuse. rewrite Henum. apply PipelineFacts.set_difference_spec.
  - intros enum_events events_data out Hout.
    destruct (PipelineFacts.check_dates_against_events_unfold _ _ _ _ _ _ _ Hout)
      as (ws & es & cands & Hws' & Hes & Hc & ->).
    rewrite Hws in Hws'. injection Hws' as <-. eauto.
Qed.

(** C3: for every unexplained delinquent date D, [check_dates_against_events]
    emits a candidate [{country, event_name, event_date: E}] for a qualifying
    event (country matches, year 2023) exactly when E is the day before D,
    D itself or the day after D; the result is these candidates, date by
    date, deduplicated by event date. *)
Theorem events_within_one_day enum_dates enum_events
    (Henum : forall l x, x ∈ enum_events l <-> x ∈ l)
    (weather_data : list weather) (events_data : list event) (poor : list string)
    (cntry : string) (out : list event_reason) :
  check_dates_against_events enum_dates enum_events weather_data events_data poor cntry = Ok out ->
  exists weather_set per_date,
    weather_set_of weather_data cntry = Ok weather_set
    /\ Forall2 (fun D cs => exists dd, strptime_date D = Some dd /\
         forall c, c ∈ cs <-> exists ed en edd,
           qualifying_event cntry events_data (ed, en) /\ strptime_date ed = Some edd
           /\ c = mk_event_reason cntry en ed
           /\ (toordinal edd = toordinal dd - 1 \/ toordinal edd = toordinal dd
               \/ toordinal edd = toordinal dd + 1))
       (no_weather_excuse enum_dates poor weather_set) per_date
    /\ out = remove_duplicate_events (concat per_date).
Proof.
  intros Hout.
  destruct (PipelineFacts.check_dates_against_events_unfold _ _ _ _ _ _ _ Hout)
    as (ws & es & cands & Hws & Hes & Hc & ->).
  destruct (NearFacts.event_reasons_split _ _ _ _ Hc) as (per & Hper & ->).
  exists ws, per. split; [done|]. split; [|done].
  eapply Forall2_impl; [exact Hper|].
  intros D cs (dd & Hdd & Hnear). exists dd. split; [done|].
  intros c. rewrite (NearFacts.events_near_spec _ _ _ _ Hnear c).
  split.
  - intros (ed & en & edd & Hin & Hedd & -> & Hw).
    apply Henum, (EventFacts.event_set_of_spec _ _ _ Hes) in Hin.
    apply EventFacts.within_one_day_true in Hw.
    exists ed, en, edd. split; [done|]. split; [done|]. split; [done|]. lia.
  - intros (ed & en & edd & Hq & Hedd & -> & Hw).
    exists ed, en, edd. split.
    + apply Henum, (EventFacts.event_set_of_spec _ _ _ Hes). done.
    + split; [done|]. split; [done|]. apply EventFacts.within_one_day_true. lia.
Qed.

(** C4: [remove_duplicate_events] keeps, in input order, the first
    candidate carrying each event date and drops every later one with that
    date, whatever its name: the result is a subsequence of the input, its
    event dates are pairwise distinct and are all the input's event dates,
    each kept candidate is the first of its date in the input, and the
    result is exactly the input's elements, in input order, that carry a
    date no earlier element carries. *)
Theorem remove_duplicate_events_first_per_date (l : list event_reason) :
  sublist (remove_duplicate_events l) l
  /\ NoDup (map r_event_date (remove_duplicate_events l))
  /\ (forall d, d ∈ map r_event_date (remove_duplicate_events l) <-> d ∈ map r_event_date l)
  /\ (forall e, e ∈ remove_duplicate_events l -> first_of_its_date l e)
  /\ remove_duplicate_events l = first_occurrences l.
Proof.
  destruct (DedupFacts.remove_duplicate_events_loop_spec [] l) as (Hsub & Hnd & Hmem & Hfirst).
  unfold remove_duplicate_events. split; [done|]. split; [done|]. split.
  - intros d. rewrite Hmem. split; [tauto|]. intros Hd. split; [done|]. intros Hx. inversion Hx.
  - split; [done|]. unfold first_occurrences.
    apply DedupFacts.remove_duplicate_events_loop_positions; [|done].
    intros d. simpl. split; intros Hd; inversion Hd.
Qed.

(** C5: on a non-empty list of rows, [calculate_average_hours_per_week]
    returns the sum of the rows' durations (clock_out - clock_in in hours
    when both are present, 0 otherwise) divided by the number of distinct
    ISO week numbers of the rows' dates. *)
Theorem average_is_total_over_distinct_weeks (rows : list attendance) (hours : list Q)
    (dates : list date) :
  rows <> [] ->
  Forall2 (fun a h => row_duration a = Some h) rows hours ->
  Forall2 (fun a d => strptime_date (att_date a) = Some d) rows dates ->
  exists avg, calculate_average_hours_per_week rows = Ok avg
    /\ (avg == Qsum hours / inject_Z (Z.of_nat (length (remove_dups (map iso_week dates)))))%Q.
Proof.
  intros Hne Hh Hd.
  destruct (WeekFacts.accumulate_weeks_ok rows hours dates Hh Hd [])
    as (d & Hacc & Hsum & Hkeys & Hnd).
  specialize (Hnd (NoDup_nil_2)).
  assert (Hperm : map fst d ≡ₚ remove_dups (map iso_week dates)).
  { apply NoDup_Permutation; [done|apply NoDup_remove_dups|].
    intros x. rewrite Hkeys, elem_of_remove_dups. split; [intros [Hx|Hx]; [inversion Hx|done]|].
    intros Hx; by right. }
  apply Permutation_length in Hperm. rewrite length_map in Hperm.
  unfold calculate_average_hours_per_week. rewrite Hacc. simpl.
  destruct (length d) as [|n] eqn:Hlen.
  - exfalso. destruct Hd as [|a dt rows' dates' Hdt _]; [done|].
    assert (Hin : iso_week dt ∈ map fst d) by (apply Hkeys; right; left).
    destruct d; [inversion Hin|discriminate].
  - eexists. split; [reflexivity|]. rewrite <- Hperm, Hsum. simpl.
    rewrite Qplus_0_l. reflexivity.
Qed.

(** C6: when [identify_delinquent_employees] returns, every employee of the
    roster has a report exactly when its deduplicated event count exceeds 3,
    and any report for it is the whole record (identity, average, events);
    every report belongs to a roster employee. *)
Theorem report_iff_more_than_three_events enum_dates enum_events
    (employee_data : list employee) (attendance_data : list attendance)
    (weather_data : list weather) (events_data : list event) (reps : list report) :
  identify_delinquent_employees enum_dates enum_events employee_data attendance_data
    weather_data events_data = Ok reps ->
  (forall emp, emp ∈ employee_data -> exists ead poor evs avg,
     get_employee_attendance_data (record_id emp) attendance_data 2023 = Ok ead
     /\ check_employee_times ead = Ok poor
     /\ check_dates_against_events enum_dates enum_events weather_data events_data poor
          (country emp) = Ok evs
     /\ calculate_average_hours_per_week ead = Ok avg
     /\ ((exists r, r ∈ reps /\ rep_employee r = emp) <-> (3 < length evs)%nat)
     /\ (forall r, r ∈ reps -> rep_employee r = emp -> r = mk_report emp (Num avg) evs))
  /\ (forall r, r ∈ reps -> rep_employee r ∈ employee_data).
Proof.
  intros Hid. destruct (PipelineFacts.identify_ok _ _ _ _ _ _ _ Hid) as [H1 H2].
  assert (Hown : forall r, r ∈ reps -> exists emp, emp ∈ employee_data
            /\ rep_employee r = emp
            /\ process_employee enum_dates enum_events attendance_data weather_data events_data emp
               = Ok (Some r)).
  { intros r Hr. destruct (H1 r Hr) as (emp & Hemp & Hp). exists emp.
    split; [done|]. split; [|done].
    destruct (PipelineFacts.process_employee_ok _ _ _ _ _ _ _ Hp)
      as (ead & poor & evs & avg & _ & _ & _ & _ & Ho).
    destruct (3 <? _); [injection Ho as ->; done|discriminate]. }
  split.
  - intros emp Hemp. destruct (H2 emp Hemp) as (o & Hp & Hin).
    destruct (PipelineFacts.process_employee_ok _ _ _ _ _ _ _ Hp)
      as (ead & poor & evs & avg & Hg & Hc & Hd & Ha & Ho).
    exists ead, poor, evs, avg. do 4 (split; [done|]). split.
    + split.
      * intros (r & Hr & Hre). destruct (Hown r Hr) as (emp' & _ & Hre' & Hp').
        rewrite Hre in Hre'. subst emp'. rewrite Hp in Hp'. injection Hp' as Hp'.
        rewrite Ho in Hp'. destruct (Z.ltb_spec 3 (Z.of_nat (length evs))); [lia|discriminate].
      * intros Hlt. destruct (Z.ltb_spec 3 (Z.of_nat (length evs))) as [_|Hge]; [|lia].
        exists (mk_report emp (Num avg) evs). split; [|done]. apply Hin. done.
    + intros r Hr Hre. destruct (Hown r Hr) as (emp' & _ & Hre' & Hp').
      rewrite Hre in Hre'. subst emp'. rewrite Hp in Hp'. injection Hp' as Hp'.
      rewrite Ho in Hp'. destruct (3 <? _); [injection Hp' as <-; done|discriminate].
  - intros r Hr. destruct (Hown r Hr) as (emp & Hemp & -> & _). done.
Qed.

(** C7: [calculate_average_hours_per_week] on no rows raises
    ZeroDivisionError; an employee with no rows in 2023 gets that error from
    the loop body, and the error is not caught, so the run returns no list. *)
Theorem no_rows_division_by_zero enum_dates enum_events (employee_data : list employee)
    (attendance_data : list attendance) (weather_data : list weather)
    (events_data : list event) (emp : employee) :
  emp ∈ employee_data ->
  get_employee_attendance_data (record_id emp) attendance_data 2023 = Ok [] ->
  calculate_average_hours_per_week [] = Err ZeroDivisionError
  /\ (forall evs, check_dates_against_events enum_dates enum_events weather_data events_data []
                    (country emp) = Ok evs ->
      process_employee enum_dates enum_events attendance_data weather_data events_data emp
      = Err ZeroDivisionError)
  /\ exists e, identify_delinquent_employees enum_dates enum_events employee_data
                 attendance_data weather_data events_data = Err e.
Proof.
  intros Hemp Hg. split; [reflexivity|].
  assert (Hp : exists e, process_employee enum_dates enum_events attendance_data weather_data
                           events_data emp = Err e).
  { unfold process_employee. rewrite Hg. simpl.
    destruct (check_dates_against_events _ _ _ _ _ _); simpl; eauto. }
  split.
  - intros evs Hevs. unfold process_employee. rewrite Hg. simpl. rewrite Hevs. reflexivity.
  - destruct Hp as [e Hp]. eapply RunFacts.identify_err_of_process_err; eauto.
Qed.

(** C8: [get_employee_attendance_data] returns exactly the rows whose
    employee_record_id is the given one and whose date's year component
    ([int] of the part before the first '-') equals the year, in input
    order; it fails only when such an employee row has no integer year. *)
Theorem employee_rows_of_year (rid year : Z) (rows out : list attendance) :
  get_employee_attendance_data rid rows year = Ok out <->
  (forall a, a ∈ rows -> employee_record_id a = rid -> exists y, date_year_of (att_date a) = Ok y)
  /\ out = List.filter (row_of_employee_in_year rid year) rows.
Proof. apply SelectFacts.get_employee_attendance_data_iff. Qed.

(** C10: a row with exactly one missing clock time makes
    [check_employee_times] raise (a TypeError from the missing value when
    the other one is well-formed); when it is a 2023 row of a roster
    employee, the whole run fails. *)
Theorem one_missing_clock_fails enum_dates enum_events (employee_data : list employee)
    (attendance_data : list attendance) (weather_data : list weather)
    (events_data : list event) (emp : employee) (a : attendance) :
  emp ∈ employee_data -> a ∈ attendance_data ->
  row_of_employee_in_year (record_id emp) 2023 a = true ->
  one_clock_missing a ->
  (forall rows, a ∈ rows -> exists e, check_employee_times rows = Err e)
  /\ (forall s t, (clock_in a = Some s \/ clock_out a = Some s) -> strptime_time s = Some t ->
      check_employee_times [a] = Err TypeError)
  /\ exists e, identify_delinquent_employees enum_dates enum_events employee_data
                 attendance_data weather_data events_data = Err e.
Proof.
  intros Hemp Ha Hrow Hm. split; [|split].
  - intros rows Hin. by apply (RunFacts.check_employee_times_err_of_missing rows a).
  - intros s t Hs Ht. simpl.
    destruct Hm as [[Hi Ho]|[Hi Ho]].
    + destruct Hs as [Hs|Hs]; [congruence|]. rewrite Hi, Hs. reflexivity.
    + destruct Hs as [Hs|Hs]; [|congruence]. rewrite Hs, Ho. simpl. rewrite Ht. reflexivity.
  - assert (Hp : exists e, process_employee enum_dates enum_events attendance_data weather_data
                             events_data emp = Err e).
    { unfold process_employee.
      destruct (get_employee_attendance_data _ _ _) as [ead|e] eqn:Hg; simpl; [|eauto].
      assert (Hin : a ∈ ead) by (apply (SelectFacts.get_employee_attendance_data_sub _ _ _ _ a Hg); done).
      destruct (RunFacts.check_employee_times_err_of_missing ead a Hin Hm) as [e ->].
      simpl. eauto. }
    destruct Hp as [e Hp]. eapply RunFacts.identify_err_of_process_err; eauto.
Qed.

End Claims.

(* ------------------------------------------------------------------ *)
(** ** Where the reported event dates come from, in both pipelines *)

Module OriginFacts.

Import AttendanceReport SpecWords.





Lemma to_datetime_ok (s : string) (d : date) :
  AttendanceReportAlternate.to_datetime s = Ok d ->
  strptime_date s = Some d /\ AttendanceReportAlternate.in_timestamp_range d = true.
Proof.
  unfold AttendanceReportAlternate.to_datetime, parse_date.
  destruct (AttendanceReportAlternate.iso_date_shape s); [|discriminate].
  destruct (strptime_date s) as [d'|]; simpl; [|discriminate].
  destruct (AttendanceReportAlternate.in_timestamp_range d') eqn:Hr; [|discriminate].
  by intros [= <-].
Qed.



End OriginFacts.

Module Refinement.

Import AttendanceReport SpecWords Samples.



End Refinement.

(* ------------------------------------------------------------------ *)
(** ** Facts used by the further properties *)

Module ExtraFacts.

Import AttendanceReport.

Lemma rbind_ok_r {A : Type} (m : result A) : rbind m Ok = m.
Proof. by destruct m. Qed.

Lemma digit_not_space (c : ascii) (d : Z) : digit_val c = Some d -> is_py_space c = false.
Proof.
  unfold digit_val, is_py_space.
  destruct ((48 <=? Z.of_nat (nat_of_ascii c)) && (Z.of_nat (nat_of_ascii c) <=? 57)) eqn:H;
    [|discriminate]. intros _.
  apply andb_true_iff in H as [H1 H2]. apply Z.leb_le in H1, H2.
  destruct (Nat.eqb_spec (nat_of_ascii c) 32); [lia|].
  destruct (Nat.leb_spec 9 (nat_of_ascii c)); destruct (Nat.leb_spec (nat_of_ascii c) 13);
    simpl; try reflexivity; lia.
Qed.

Lemma digits_acc_some_cons (c : ascii) (s : string) (acc v : Z) :
  digits_acc acc (String c s) = Some v -> exists d, digit_val c = Some d.
Proof. simpl. destruct (digit_val c) as [d|]; [by exists d|discriminate]. Qed.

Lemma lstrip_digits (s : string) (acc v : Z) :
  s <> EmptyString -> digits_acc acc s = Some v -> lstrip s = s.
Proof.
  destruct s as [|c r]; [done|]. intros _ H.
  destruct (digits_acc_some_cons _ _ _ _ H) as (d & Hd). simpl.
  by rewrite (digit_not_space _ _ Hd).
Qed.

Lemma rstrip_digits (s : string) : forall acc v,
  digits_acc acc s = Some v -> rstrip s = s.
Proof.
  induction s as [|c r IH]; intros acc v H; [done|].
  simpl in H. destruct (digit_val c) as [d|] eqn:Hd; [|discriminate].
  simpl. rewrite (IH _ _ H). destruct r; [|done].
  by rewrite (digit_not_space _ _ Hd).
Qed.

Lemma int_digits_of_digits (s : string) : forall acc b v,
  digits_acc acc s = Some v -> (s <> EmptyString \/ b = true) -> int_digits acc b s = Some v.
Proof.
  induction s as [|c r IH]; intros acc b v H Hb.
  - simpl in *. destruct Hb as [Hb| ->]; [done|congruence].
  - simpl in *. destruct (digit_val c) as [d|]; [|discriminate].
    apply IH; [done|by right].
Qed.

Lemma py_int_digits (s : string) (v : Z) : digits_val s = Some v -> py_int s = Some v.
Proof.
  destruct s as [|c r]; [discriminate|]. unfold digits_val. intros H.
  assert (Hi : int_digits 0 false (String c r) = Some v)
    by (apply int_digits_of_digits; [done|left; done]).
  destruct (digits_acc_some_cons _ _ _ _ H) as (d & Hd).
  unfold py_int, py_strip.
  rewrite (lstrip_digits _ 0 v) by done. rewrite (rstrip_digits _ 0 v) by done.
  destruct c as [[] [] [] [] [] [] [] []];
    first [exact Hi | vm_compute in Hd; discriminate Hd].
Qed.

Lemma date_year_of_strptime (s : string) (dt : date) :
  strptime_date s = Some dt -> date_year_of s = Ok (d_year dt).
Proof.
  unfold strptime_date, date_year_of.
  destruct (py_split "-" s) as [|ys [|ms [|ds [|]]]]; try discriminate.
  destruct (String.length ys =? 4)%nat; [|discriminate].
  destruct (digits_val ys) as [y|] eqn:Hy; [|discriminate].
  destruct (short_field ms) as [m|]; [|discriminate].
  destruct (day_field ds) as [d|]; [|discriminate].
  destruct (_ && _); [|discriminate]. intros [= <-]. simpl.
  by rewrite (py_int_digits _ _ Hy).
Qed.

Lemma py_split_no_sep (sep : ascii) (p : string) :
  ~ In sep (list_ascii_of_string p) -> py_split sep p = [p].
Proof.
  induction p as [|c r IH]; intros Hn; [done|]. simpl in *.
  rewrite IH by tauto. destruct (Ascii.eqb_spec c sep); [subst; tauto|done].
Qed.

Lemma py_split_app_sep (sep : ascii) (p rest : string) :
  ~ In sep (list_ascii_of_string p) ->
  py_split sep (p ++ String sep rest) = p :: py_split sep rest.
Proof.
  induction p as [|c r IH]; intros Hn; simpl.
  - by rewrite Ascii.eqb_refl.
  - simpl in Hn. rewrite IH by tauto. destruct (Ascii.eqb_spec c sep); [subst; tauto|done].
Qed.

Lemma remove_duplicate_events_loop_id (l : list event_reason) : forall unique_dates,
  NoDup (map r_event_date l) ->
  (forall e, e ∈ l -> r_event_date e ∉ unique_dates) ->
  remove_duplicate_events_loop unique_dates l = l.
Proof.
  induction l as [|e l IH]; intros u Hnd Hout; [done|]. simpl.
  rewrite bool_decide_eq_false_2 by (apply Hout; left).
  simpl in Hnd. apply NoDup_cons in Hnd as [Hn Hnd]. f_equal. apply IH; [done|].
  intros e' He'. rewrite elem_of_cons. intros [Heq|Hin].
  - apply Hn. rewrite <- Heq. by apply DedupFacts.elem_of_map_2.
  - by apply (Hout e'); [right|].
Qed.


Lemma selections_agree (rid year : Z) (rows : list attendance) :
  forall frs, rmap AttendanceReportAlternate.frame_row_of rows = Ok frs ->
  exists out, get_employee_attendance_data rid rows year = Ok out
    /\ rmap AttendanceReportAlternate.frame_row_of out
       = Ok (List.filter (fun r => (AttendanceReportAlternate.f_record_id r =? rid)
                                && (d_year (AttendanceReportAlternate.f_date r) =? year)) frs).
Proof.
  induction rows as [|a rows IH]; intros frs H.
  - injection H as <-. by exists [].
  - simpl in H. unfold AttendanceReportAlternate.frame_row_of at 1 in H.
    destruct (AttendanceReportAlternate.to_datetime (att_date a)) as [d|] eqn:Hd;
      simpl in H; [|discriminate].
    destruct (rmap AttendanceReportAlternate.frame_row_of rows) as [frs'|x]; simpl in H;
      [|discriminate].
    injection H as <-. destruct (IH frs' eq_refl) as (out & Hout & Hmap).
    pose proof (proj1 (OriginFacts.to_datetime_ok _ _ Hd)) as Hs.
    simpl. unfold check_if_date_is_in_year. rewrite (date_year_of_strptime _ _ Hs).
    destruct (employee_record_id a =? rid) eqn:Hid; simpl; rewrite Hout; simpl.
    + destruct (d_year d =? year); simpl; [|by exists out].
      exists (a :: out). split; [done|]. simpl.
      unfold AttendanceReportAlternate.frame_row_of at 1. rewrite Hd. simpl.
      by rewrite Hmap.
    + by exists out.
Qed.



Lemma enum_nil (enum : list string -> list string)
    (Henum : forall l x, x ∈ enum l <-> x ∈ l) : enum [] = [].
Proof.
  destruct (enum []) as [|x l] eqn:He; [done|].
  assert (Hx : x ∈ enum []) by (rewrite He; apply list_elem_of_here).
  apply (proj1 (Henum [] x)) in Hx. by apply not_elem_of_nil in Hx.
Qed.

Lemma check_dates_against_events_no_dates enum_dates enum_events
    (Henum : forall l x, x ∈ enum_dates l <-> x ∈ l)
    weather_data events_data cntry out :
  check_dates_against_events enum_dates enum_events weather_data events_data [] cntry = Ok out ->
  out = [].
Proof.
  intros H. destruct (PipelineFacts.check_dates_against_events_unfold _ _ _ _ _ _ _ H)
    as (ws & es & cands & _ & _ & Hc & ->).
  unfold no_weather_excuse, set_difference in Hc. simpl in Hc.
  rewrite (enum_nil _ Henum) in Hc. simpl in Hc. by injection Hc as <-.
Qed.



Lemma weather_set_of_skip (ws rest : list weather) (cntry : string) :
  Forall (fun w => w_country w <> cntry) ws ->
  weather_set_of (ws ++ rest) cntry = weather_set_of rest cntry.
Proof.
  induction 1 as [|w ws Hw _ IH]; [done|]. simpl.
  rewrite (proj2 (String.eqb_neq _ _) Hw). simpl. rewrite IH. apply rbind_ok_r.
Qed.

Lemma weather_set_of_mid (w1 ws w2 : list weather) (cntry : string) :
  Forall (fun w => w_country w <> cntry) ws ->
  weather_set_of (w1 ++ ws ++ w2) cntry = weather_set_of (w1 ++ w2) cntry.
Proof.
  intros Hws. induction w1 as [|w w1 IH]; simpl; [by apply weather_set_of_skip|].
  by rewrite IH.
Qed.

Lemma event_set_of_skip (es rest : list event) (cntry : string) :
  Forall (fun e => e_country e <> cntry) es ->
  event_set_of (es ++ rest) cntry = event_set_of rest cntry.
Proof.
  induction 1 as [|e es He _ IH]; [done|]. simpl.
  rewrite (proj2 (String.eqb_neq _ _) He). simpl. rewrite IH. apply rbind_ok_r.
Qed.

Lemma event_set_of_mid (e1 es e2 : list event) (cntry : string) :
  Forall (fun e => e_country e <> cntry) es ->
  event_set_of (e1 ++ es ++ e2) cntry = event_set_of (e1 ++ e2) cntry.
Proof.
  intros Hes. induction e1 as [|e e1 IH]; simpl; [by apply event_set_of_skip|].
  by rewrite IH.
Qed.

Import AttendanceReportAlternate.

Lemma timestamps_never_equal_strings (f : weather -> string) (g : timed_row -> date)
    (ws : list weather) (rows : list timed_row) :
  List.filter (fun v => existsb (py_eq v) (map (fun w => PyStr (f w)) ws))
    (map (fun r => PyTimestamp (g r)) rows) = [].
Proof.
  induction rows as [|r rows IH]; [done|]. simpl.
  assert (Hf : existsb (py_eq (PyTimestamp (g r))) (map (fun w => PyStr (f w)) ws) = false).
  { clear IH. induction ws as [|w ws IHw]; [done|]. exact IHw. }
  by rewrite Hf.
Qed.

Lemma no_common_dates_keeps_rows (rows : list timed_row) :
  List.filter (fun r => negb (existsb (py_eq (PyTimestamp (tr_date r))) [])) rows = rows.
Proof.
  induction rows as [|r rows IH]; [done|].
  change (r :: List.filter (fun r => negb (existsb (py_eq (PyTimestamp (tr_date r))) [])) rows
          = r :: rows).
  by rewrite IH.
Qed.

Lemma alternate_check_dates_unfold weather_df events_df attendance_df cntry :
  weather_df <> [] ->
  AttendanceReportAlternate.check_dates_against_events weather_df events_df attendance_df cntry
  = if bool_decide (events_df = []) then Err KeyError else
    (events <-- rmap event_frame_row_of events_df ;;
     let filtered_events_df :=
       List.filter (fun ev => String.eqb (ef_country ev) cntry
                              && (d_year (ef_event_date ev) =? 2023)) events in
     Ok (remove_duplicate_events
           (flat_map (fun r => event_rows_near cntry filtered_events_df (tr_date r))
              attendance_df))).
Proof.
  intros Hw. unfold AttendanceReportAlternate.check_dates_against_events. cbv zeta.
  rewrite bool_decide_false by done. rewrite timestamps_never_equal_strings. by rewrite no_common_dates_keeps_rows.
Qed.

Lemma filter_app_perm {A : Type} (P Q : A -> bool) (l : list A) :
  (forall x, x ∈ l -> P x && Q x = false) ->
  List.filter P l ++ List.filter Q l ≡ₚ List.filter (fun x => P x || Q x) l.
Proof.
  induction l as [|x l IH]; intros Hd; [done|]. simpl.
  assert (Hx := Hd x (list_elem_of_here _ _)).
  assert (IH' : List.filter P l ++ List.filter Q l ≡ₚ List.filter (fun x => P x || Q x) l)
    by (apply IH; intros y Hy; apply Hd; by right).
  destruct (P x), (Q x); simpl in *; try discriminate.
  - by apply Permutation_skip.
  - rewrite <- Permutation_middle. by apply Permutation_skip.
  - done.
Qed.

Lemma frame_row_of_ok (a : attendance) (fr : frame_row) :
  frame_row_of a = Ok fr ->
  exists d, strptime_date (att_date a) = Some d
    /\ fr = mk_frame_row (employee_record_id a) d (clock_in a) (clock_out a).
Proof.
  unfold frame_row_of. destruct (to_datetime (att_date a)) as [d|] eqn:Hd; simpl;
    [|discriminate].
  intros [= <-]. exists d. split; [|done]. exact (proj1 (OriginFacts.to_datetime_ok _ _ Hd)).
Qed.

Lemma rmap_cons_ok {A B : Type} (f : A -> result B) (x : A) (l : list A) (ys : list B) :
  rmap f (x :: l) = Ok ys ->
  exists y ys', f x = Ok y /\ rmap f l = Ok ys' /\ ys = y :: ys'.
Proof.
  simpl. destruct (f x) as [y|e]; simpl; [|discriminate].
  destruct (rmap f l) as [ys'|e]; simpl; [|discriminate].
  intros [= <-]. by exists y, ys'.
Qed.

Lemma rmap_cons_eq {A B : Type} (f : A -> result B) (x : A) (l : list A) :
  rmap f (x :: l) = (y <-- f x ;; ys <-- rmap f l ;; Ok (y :: ys)).
Proof. reflexivity. Qed.

Lemma check_times_agree (rows : list attendance) : forall ds frs,
  AttendanceReport.check_employee_times rows = Ok ds ->
  rmap frame_row_of rows = Ok frs ->
  exists trs dds, rmap timed_row_of frs = Ok trs
    /\ rmap parse_date ds = Ok dds
    /\ map tr_date (List.filter (fun r =>
          (cell_gt (tr_clock_in r) start_time || cell_lt (tr_clock_out r) end_time)
          || (is_na (tr_clock_in r) || is_na (tr_clock_out r))) trs) = dds
    /\ (forall tr, tr ∈ trs ->
          (cell_gt (tr_clock_in tr) start_time || cell_lt (tr_clock_out tr) end_time)
          && (is_na (tr_clock_in tr) || is_na (tr_clock_out tr)) = false)
    /\ forallb (fun tr => is_na (tr_clock_in tr)) trs = forallb (fun a => is_na (clock_in a)) rows
    /\ forallb (fun tr => is_na (tr_clock_out tr)) trs = forallb (fun a => is_na (clock_in a)) rows.
Proof.
  induction rows as [|a rows IH]; intros ds frs Hc Hf.
  - injection Hc as <-. injection Hf as <-. exists [], [].
    split; [done|]. split; [done|]. split; [done|]. split; [|done]. intros tr Htr. inversion Htr.
  - apply rmap_cons_ok in Hf as (fr & frs' & Hfr & Hfrs & ->).
    apply frame_row_of_ok in Hfr as (d & Hd & ->).
    simpl in Hc.
    destruct (clock_in a) as [s1|] eqn:Hi, (clock_out a) as [s2|] eqn:Ho; simpl in Hc.
    3: discriminate Hc.
    2: destruct (strptime_time s1); discriminate Hc.
    + destruct (strptime_time s1) as [t1|] eqn:H1; simpl in Hc; [|discriminate].
      destruct (strptime_time s2) as [t2|] eqn:H2; simpl in Hc; [|discriminate].
      destruct (AttendanceReport.check_employee_times rows) as [ds'|x]; simpl in Hc;
        [|discriminate].
      injection Hc as <-.
      destruct (IH ds' frs' eq_refl Hfrs) as (trs & dds & Ht & Hp & Hm & Hdis & Hni & Hno).
      exists (mk_timed_row (employee_record_id a) d (Some t1) (Some t2) :: trs).
      exists (if time_lt start_time t1 || time_lt t2 end_time then d :: dds else dds).
      split; [rewrite rmap_cons_eq, Ht; unfold timed_row_of; simpl; by rewrite H1, H2|].
      split.
      { destruct (time_lt start_time t1 || time_lt t2 end_time); [|done].
        rewrite rmap_cons_eq, Hp. unfold parse_date. by rewrite Hd. }
      split.
      { simpl. rewrite !orb_false_r.
        destruct (time_lt start_time t1 || time_lt t2 end_time); simpl; by rewrite Hm. }
      split; [|simpl; by rewrite Hi].
      intros tr Htr. apply elem_of_cons in Htr as [->|Htr]; [simpl; apply andb_false_r|].
      by apply Hdis.
    + destruct (AttendanceReport.check_employee_times rows) as [ds'|x]; simpl in Hc;
        [|discriminate].
      injection Hc as <-.
      destruct (IH ds' frs' eq_refl Hfrs) as (trs & dds & Ht & Hp & Hm & Hdis & Hni & Hno).
      exists (mk_timed_row (employee_record_id a) d None None :: trs), (d :: dds).
      split; [rewrite rmap_cons_eq, Ht; done|].
      split; [rewrite rmap_cons_eq, Hp; unfold parse_date; by rewrite Hd|].
      split; [simpl; by rewrite Hm|].
      split; [|simpl; by rewrite Hi, Hni, Hno].
      intros tr Htr. apply elem_of_cons in Htr as [->|Htr]; [done|]. by apply Hdis.
Qed.

Lemma timed_row_of_ok (r : frame_row) (tr : timed_row) :
  timed_row_of r = Ok tr ->
  tr = mk_timed_row (f_record_id r) (f_date r) (f_clock_in r ≫= strptime_time)
         (f_clock_out r ≫= strptime_time).
Proof.
  unfold timed_row_of, to_time.
  destruct (f_clock_in r) as [s1|]; simpl;
    [destruct (strptime_time s1) as [t1|]; simpl; [|discriminate]|];
  (destruct (f_clock_out r) as [s2|]; simpl;
    [destruct (strptime_time s2) as [t2|]; simpl; [|discriminate]|]);
  by intros [= <-].
Qed.

Lemma timed_rows_ok (df : list frame_row) :
  (forall r, r ∈ df ->
     (forall s, f_clock_in r = Some s -> is_Some (strptime_time s))
     /\ (forall s, f_clock_out r = Some s -> is_Some (strptime_time s))) ->
  exists trs, rmap timed_row_of df = Ok trs
    /\ Forall2 (fun r tr => tr = mk_timed_row (f_record_id r) (f_date r)
                  (f_clock_in r ≫= strptime_time) (f_clock_out r ≫= strptime_time)) df trs.
Proof.
  induction df as [|r df IH]; intros Hok; [by exists []|].
  destruct IH as (trs & Ht & Hf2); [intros r' Hr'; apply Hok; by right|].
  destruct (Hok r (list_elem_of_here _ _)) as [Hi Ho].
  assert (Hr : exists tr, timed_row_of r = Ok tr).
  { unfold timed_row_of, to_time.
    destruct (f_clock_in r) as [s1|]; simpl;
      [destruct (Hi s1 eq_refl) as [t1 ->]; simpl|];
    (destruct (f_clock_out r) as [s2|]; simpl;
      [destruct (Ho s2 eq_refl) as [t2 ->]; simpl|]); eauto. }
  destruct Hr as (tr & Htr).
  exists (tr :: trs). split; [by rewrite rmap_cons_eq, Htr, Ht|].
  constructor; [by apply timed_row_of_ok|done].
Qed.

Lemma absent_rows_convert (rows : list attendance) : forall frs,
  (forall a, a ∈ rows -> clock_in a = None /\ clock_out a = None) ->
  rmap frame_row_of rows = Ok frs ->
  AttendanceReport.check_employee_times rows = Ok (map att_date rows)
  /\ exists trs, rmap timed_row_of frs = Ok trs /\ length trs = length rows
                 /\ forallb (fun tr => is_na (tr_clock_in tr)) trs = true.
Proof.
  induction rows as [|a rows IH]; intros frs Habs Hf.
  - injection Hf as <-. split; [done|]. by exists [].
  - apply rmap_cons_ok in Hf as (fr & frs' & Hfr & Hfrs & ->).
    apply frame_row_of_ok in Hfr as (d & _ & ->).
    destruct (Habs a (list_elem_of_here _ _)) as [Hi Ho].
    destruct (IH frs') as (Hc & trs & Ht & Hlen & Hna);
      [intros a' Ha'; apply Habs; by right|done|].
    split; [simpl; by rewrite Hi, Ho, Hc|].
    exists (mk_timed_row (employee_record_id a) d None None :: trs).
    split; [rewrite rmap_cons_eq, Ht; unfold timed_row_of; simpl; by rewrite Hi, Ho|].
    split; [simpl; by rewrite Hlen|]. done.
Qed.

Lemma timed_rows_forallb_na (df : list frame_row) (trs : list timed_row)
    (fi : frame_row -> option string) (ti : timed_row -> option time_of_day) :
  Forall2 (fun r tr => ti tr = fi r ≫= strptime_time) df trs ->
  (exists r, r ∈ df /\ exists t, fi r ≫= strptime_time = Some t) ->
  forallb (fun tr => is_na (ti tr)) trs = false.
Proof.
  induction 1 as [|r tr df trs Hrt _ IH]; intros (r0 & Hr0 & t & Ht); [inversion Hr0|].
  simpl. apply elem_of_cons in Hr0 as [->|Hr0].
  - by rewrite Hrt, Ht.
  - rewrite IH; [apply andb_false_r|]. eauto.
Qed.

Lemma present_clock_parses (df : list frame_row) (f : frame_row -> option string) :
  (forall r, r ∈ df -> forall s, f r = Some s -> is_Some (strptime_time s)) ->
  (exists r, r ∈ df /\ is_Some (f r)) ->
  exists r, r ∈ df /\ exists t, f r ≫= strptime_time = Some t.
Proof.
  intros Hok (r & Hr & s & Hs). destruct (Hok r Hr s Hs) as [t Ht].
  exists r. split; [done|]. exists t. by rewrite Hs.
Qed.

End ExtraFacts.
(* ------------------------------------------------------------------ *)
(** ** Further properties of the two pipelines *)

Module Extras.

Import AttendanceReport.

(** X1: on a date that [strptime(date, "%Y-%m-%d")] accepts,
    [check_if_date_is_in_year] compares the parsed year with [year]. *)
Theorem check_if_date_is_in_year_parsed_year (s : string) (dt : date) (year : Z) :
  strptime_date s = Some dt ->
  check_if_date_is_in_year s year = Ok (d_year dt =? year).
Proof.
  intros H. unfold check_if_date_is_in_year. by rewrite (ExtraFacts.date_year_of_strptime _ _ H).
Qed.

(** X2: [check_if_date_is_in_year] only reads the text before the first
    ['-']: whatever follows it, even text that is no date, is never
    looked at. *)
Theorem check_if_date_is_in_year_reads_first_field (p rest : string) (year : Z) :
  ~ In "-"%char (list_ascii_of_string p) ->
  check_if_date_is_in_year (p ++ String "-" rest) year = check_if_date_is_in_year p year.
Proof.
  intros Hp. unfold check_if_date_is_in_year, date_year_of.
  by rewrite ExtraFacts.py_split_app_sep, ExtraFacts.py_split_no_sep.
Qed.

(** X3: on two valid clock times, [calculate_total_hours] returns their
    difference in hours, strictly between -24 and 24, and negative exactly
    when the stop time is earlier in the day than the start time: there is
    no wrap-around past midnight. *)
Theorem calculate_total_hours_sign_and_bounds (start_s stop_s : string)
    (start stop : time_of_day) :
  strptime_time start_s = Some start -> strptime_time stop_s = Some stop ->
  exists h, calculate_total_hours start_s stop_s = Ok h
    /\ (h == inject_Z (seconds_of stop - seconds_of start) / 3600)%Q
    /\ (-24 < h < 24)%Q
    /\ ((h < 0)%Q <-> time_lt stop start = true).
Proof.
  intros H1 H2. exists (inject_Z (seconds_of stop - seconds_of start) / 3600)%Q.
  split; [unfold calculate_total_hours; by rewrite H1, H2|]. split; [reflexivity|].
  destruct (TimeFacts.strptime_time_range _ _ H1) as (? & ? & ?).
  destruct (TimeFacts.strptime_time_range _ _ H2) as (? & ? & ?).
  rewrite TimeFacts.time_lt_seconds by lia. rewrite Z.ltb_lt.
  unfold seconds_of. unfold Qlt, Qdiv, Qmult, Qinv, inject_Z. simpl. lia.
Qed.

(** X4: [remove_duplicate_events] is idempotent: deduplicating an already
    deduplicated list changes nothing. *)
Theorem remove_duplicate_events_idempotent (l : list event_reason) :
  remove_duplicate_events (remove_duplicate_events l) = remove_duplicate_events l.
Proof.
  destruct (DedupFacts.remove_duplicate_events_loop_spec [] l) as (_ & Hnd & _).
  unfold remove_duplicate_events at 1.
  apply ExtraFacts.remove_duplicate_events_loop_id; [done|].
  intros e _ He. by apply not_elem_of_nil in He.
Qed.

(** X5: a list whose event dates are pairwise distinct comes out of
    [remove_duplicate_events] unchanged. *)
Theorem remove_duplicate_events_distinct_identity (l : list event_reason) :
  NoDup (map r_event_date l) -> remove_duplicate_events l = l.
Proof.
  intros Hnd. apply ExtraFacts.remove_duplicate_events_loop_id; [done|].
  intros e _ He. by apply not_elem_of_nil in He.
Qed.

(** X6: [get_employee_attendance_data] never looks at the rows of other
    employees: removing one of them, even one whose date has no year,
    changes neither the result nor the error. *)
Theorem get_employee_attendance_data_ignores_other_employees (rid year : Z) (a : attendance)
    (l1 l2 : list attendance) :
  employee_record_id a <> rid ->
  get_employee_attendance_data rid (l1 ++ a :: l2) year
  = get_employee_attendance_data rid (l1 ++ l2) year.
Proof.
  intros Hne. induction l1 as [|b l1 IH]; simpl.
  - by rewrite (proj2 (Z.eqb_neq _ _) Hne).
  - by rewrite IH.
Qed.

(** X7: on an attendance dataset whose dates all convert under
    [pd.to_datetime] (zero-padded ISO dates from 1677-09-22 to 2262-04-11),
    the hand-rolled [get_employee_attendance_data] and the data-frame one
    select the same rows in the same order. *)
Theorem attendance_selections_agree (rows : list attendance) (rid year : Z)
    (frs : list AttendanceReportAlternate.frame_row) :
  rmap AttendanceReportAlternate.frame_row_of rows = Ok frs ->
  exists out, get_employee_attendance_data rid rows year = Ok out
    /\ AttendanceReportAlternate.get_employee_attendance_data rows rid year
       = rmap AttendanceReportAlternate.frame_row_of out.
Proof.
  intros Hf. destruct (ExtraFacts.selections_agree rid year rows frs Hf) as (out & Hout & Hm).
  exists out. split; [done|].
  unfold AttendanceReportAlternate.get_employee_attendance_data. by rewrite Hf, Hm.
Qed.

(** X8: [identify_delinquent_employees] handles each employee on its own:
    on a roster [l1 ++ l2] it returns the reports for [l1] followed by the
    reports for [l2], and fails with the first error met. *)
Theorem identify_delinquent_employees_app enum_dates enum_events (l1 l2 : list employee)
    attendance_data weather_data events_data :
  identify_delinquent_employees enum_dates enum_events (l1 ++ l2) attendance_data
    weather_data events_data
  = (r1 <-- identify_delinquent_employees enum_dates enum_events l1 attendance_data
              weather_data events_data ;;
     r2 <-- identify_delinquent_employees enum_dates enum_events l2 attendance_data
              weather_data events_data ;;
     Ok (r1 ++ r2)).
Proof.
  induction l1 as [|emp l1 IH]; simpl.
  - by rewrite ExtraFacts.rbind_ok_r.
  - destruct (process_employee _ _ _ _ _ emp) as [o|x]; simpl; [|done]. rewrite IH.
    destruct (identify_delinquent_employees _ _ l1 _ _ _) as [r1|x]; simpl; [|done].
    destruct (identify_delinquent_employees _ _ l2 _ _ _) as [r2|x]; simpl; [|done].
    by destruct o.
Qed.

(** X9: the same for the data-frame pipeline [analyze_data]. *)
Theorem analyze_data_app (l1 l2 : list employee) attendance_df weather_df events_df :
  AttendanceReportAlternate.analyze_data (l1 ++ l2) attendance_df weather_df events_df
  = (r1 <-- AttendanceReportAlternate.analyze_data l1 attendance_df weather_df events_df ;;
     r2 <-- AttendanceReportAlternate.analyze_data l2 attendance_df weather_df events_df ;;
     Ok (r1 ++ r2)).
Proof.
  induction l1 as [|emp l1 IH]; simpl.
  - by rewrite ExtraFacts.rbind_ok_r.
  - destruct (AttendanceReportAlternate.process_employee _ _ _ emp) as [o|x]; simpl; [|done].
    rewrite IH.
    destruct (AttendanceReportAlternate.analyze_data l1 _ _ _) as [r1|x]; simpl; [|done].
    destruct (AttendanceReportAlternate.analyze_data l2 _ _ _) as [r2|x]; simpl; [|done].
    by destruct o.
Qed.

(** X10: an employee none of whose 2023 rows is delinquent is never
    reported by [identify_delinquent_employees]. *)
Theorem compliant_employee_not_reported enum_dates enum_events
    (Henum : forall l x, x ∈ enum_dates l <-> x ∈ l)
    (employee_data : list employee) (attendance_data : list attendance)
    (weather_data : list weather) (events_data : list event) (reps : list report)
    (emp : employee) (ead : list attendance) :
  identify_delinquent_employees enum_dates enum_events employee_data attendance_data
    weather_data events_data = Ok reps ->
  get_employee_attendance_data (record_id emp) attendance_data 2023 = Ok ead ->
  check_employee_times ead = Ok [] ->
  forall r, r ∈ reps -> rep_employee r <> emp.
Proof.
  intros Hid Hg Hc r Hr Hre.
  destruct (proj1 (PipelineFacts.identify_ok _ _ _ _ _ _ _ Hid) r Hr) as (emp' & _ & Hp).
  destruct (PipelineFacts.process_employee_ok _ _ _ _ _ _ _ Hp)
    as (ead' & poor & evs & avg & Hg' & Hc' & Hd & _ & Ho).
  destruct (Z.ltb_spec 3 (Z.of_nat (length evs))) as [Hlt|]; [|discriminate].
  injection Ho as Ho. rewrite Ho in Hre. simpl in Hre. subst emp'.
  rewrite Hg in Hg'. injection Hg' as <-. rewrite Hc in Hc'. injection Hc' as <-.
  apply (ExtraFacts.check_dates_against_events_no_dates _ _ Henum) in Hd. subst evs.
  simpl in Hlt. lia.
Qed.

(** X11: [check_dates_against_events] never looks at weather or event rows
    of another country: removing them, even ones whose dates have no
    year, changes neither the result nor the error. *)
Theorem other_country_rows_ignored enum_dates enum_events (w1 ws w2 : list weather)
    (e1 es e2 : list event) (poor : list string) (cntry : string) :
  Forall (fun w => w_country w <> cntry) ws ->
  Forall (fun e => e_country e <> cntry) es ->
  check_dates_against_events enum_dates enum_events (w1 ++ ws ++ w2) (e1 ++ es ++ e2) poor cntry
  = check_dates_against_events enum_dates enum_events (w1 ++ w2) (e1 ++ e2) poor cntry.
Proof.
  intros Hws Hes. unfold check_dates_against_events.
  by rewrite ExtraFacts.weather_set_of_mid, ExtraFacts.event_set_of_mid.
Qed.

(** X12: the data-frame [check_dates_against_events] gives the same result
    for any two non-empty weather datasets: its severe-weather dates are
    strings and the attendance dates are timestamps, which never compare
    equal, so no delinquent date is ever excused by the weather. (A weather
    dataset with no rows gives a frame without columns, on which
    [weather_df['country']] raises KeyError, hence the non-emptiness.) *)
Theorem alternate_events_ignore_weather (weather1 weather2 : list weather)
    (events_df : list event) (attendance_df : list AttendanceReportAlternate.timed_row)
    (cntry : string) :
  weather1 <> [] -> weather2 <> [] ->
  AttendanceReportAlternate.check_dates_against_events weather1 events_df attendance_df cntry
  = AttendanceReportAlternate.check_dates_against_events weather2 events_df attendance_df cntry.
Proof. intros Hw1 Hw2. by rewrite !ExtraFacts.alternate_check_dates_unfold. Qed.

(** X13: where the hand-rolled [check_employee_times] succeeds, the dates
    convert to timestamps, and the frame is empty or some row has clock
    times, the data-frame [check_employee_times] succeeds too and lists the
    rows of the same delinquent dates, in another order. (On a non-empty
    frame of absent rows only, the data-frame one raises TypeError.) *)
Theorem check_employee_times_pipelines_agree (rows : list attendance) (ds : list string)
    (frs : list AttendanceReportAlternate.frame_row) :
  check_employee_times rows = Ok ds ->
  rmap AttendanceReportAlternate.frame_row_of rows = Ok frs ->
  rows = [] \/ (exists a, a ∈ rows /\ clock_in a <> None) ->
  exists trs poor dds,
    AttendanceReportAlternate.check_employee_times frs = Ok (trs, poor)
    /\ rmap parse_date ds = Ok dds
    /\ Permutation (map AttendanceReportAlternate.tr_date poor) dds.
Proof.
  intros Hc Hf Hrows.
  destruct (ExtraFacts.check_times_agree rows ds frs Hc Hf)
    as (trs & dds & Ht & Hp & Hm & Hdis & Hni & Hno).
  exists trs. eexists. exists dds. split.
  { unfold AttendanceReportAlternate.check_employee_times. rewrite Ht. simpl.
    destruct Hrows as [->|(a & Ha & Hin)].
    - injection Hf as <-. injection Ht as <-. reflexivity.
    - assert (Hall : forallb (fun a => AttendanceReportAlternate.is_na (clock_in a)) rows = false).
      { apply not_true_is_false. intros Hall. apply forallb_forall with (x := a) in Hall;
          [|by apply list_elem_of_In].
        destruct (clock_in a); [discriminate|done]. }
      rewrite Hni, Hno, Hall, andb_false_r. reflexivity. }
  split; [done|]. rewrite <- Hm. apply Permutation_map.
  by apply ExtraFacts.filter_app_perm.
Qed.

(** X15: the data-frame [check_employee_times] succeeds on every frame
    whose present clock times parse and that is empty or has a clock-in
    time and a clock-out time somewhere (an all-[NaT] clock column of a
    non-empty frame raises TypeError), converts each row's clocks, and lists
    a row among the poor days exactly when a clock time is missing, or it
    clocked in after 08:15:00, or out before 16:00:00; unlike the
    hand-rolled one, a row with only one clock time is no error. *)
Theorem alternate_check_employee_times_classifies (df : list AttendanceReportAlternate.frame_row) :
  (forall r, r ∈ df ->
     (forall s, AttendanceReportAlternate.f_clock_in r = Some s -> is_Some (strptime_time s))
     /\ (forall s, AttendanceReportAlternate.f_clock_out r = Some s -> is_Some (strptime_time s))) ->
  df = [] \/ ((exists r, r ∈ df /\ is_Some (AttendanceReportAlternate.f_clock_in r))
              /\ (exists r, r ∈ df /\ is_Some (AttendanceReportAlternate.f_clock_out r))) ->
  exists trs poor,
    AttendanceReportAlternate.check_employee_times df = Ok (trs, poor)
    /\ Forall2 (fun r tr => tr = AttendanceReportAlternate.mk_timed_row
                  (AttendanceReportAlternate.f_record_id r) (AttendanceReportAlternate.f_date r)
                  (AttendanceReportAlternate.f_clock_in r ≫= strptime_time)
                  (AttendanceReportAlternate.f_clock_out r ≫= strptime_time)) df trs
    /\ (forall tr, tr ∈ poor <-> tr ∈ trs
          /\ (AttendanceReportAlternate.tr_clock_in tr = None
              \/ AttendanceReportAlternate.tr_clock_out tr = None
              \/ (exists t, AttendanceReportAlternate.tr_clock_in tr = Some t
                            /\ time_lt start_time t = true)
              \/ (exists t, AttendanceReportAlternate.tr_clock_out tr = Some t
                            /\ time_lt t end_time = true))).
Proof.
  intros Hok Hcols. destruct (ExtraFacts.timed_rows_ok df Hok) as (trs & Ht & Hf2).
  eexists trs, _. split.
  { unfold AttendanceReportAlternate.check_employee_times. rewrite Ht. simpl.
    destruct Hcols as [->|[Hi Ho]].
    - inversion Hf2. reflexivity.
    - rewrite (ExtraFacts.timed_rows_forallb_na df trs AttendanceReportAlternate.f_clock_in
                 AttendanceReportAlternate.tr_clock_in);
        [|by apply (Forall2_impl _ _ _ _ Hf2); intros r tr ->|].
      2: { apply ExtraFacts.present_clock_parses; [|done]. intros r Hr. apply Hok, Hr. }
      rewrite (ExtraFacts.timed_rows_forallb_na df trs AttendanceReportAlternate.f_clock_out
                 AttendanceReportAlternate.tr_clock_out);
        [|by apply (Forall2_impl _ _ _ _ Hf2); intros r tr ->|].
      2: { apply ExtraFacts.present_clock_parses; [|done]. intros r Hr. apply Hok, Hr. }
      rewrite andb_false_r. reflexivity. }
  split; [done|]. intros tr.
  rewrite elem_of_app, !list_elem_of_In, !filter_In.
  destruct (AttendanceReportAlternate.tr_clock_in tr) as [ti|],
    (AttendanceReportAlternate.tr_clock_out tr) as [to|]; simpl;
  unfold AttendanceReportAlternate.cell_gt, AttendanceReportAlternate.cell_lt; simpl;
  rewrite ?orb_true_iff, ?orb_false_r;
  split; intros H; intuition (try discriminate; eauto);
  repeat match goal with
         | H : exists _, _ |- _ => destruct H as (? & ? & ?)
         | H : Some _ = Some _ |- _ => injection H as <-
         | H : None = Some _ |- _ => discriminate H
         end; intuition eauto.
Qed.

(** X16: the reports of [identify_delinquent_employees] come in roster
    order, at most one per roster entry. *)
Theorem identify_reports_in_roster_order enum_dates enum_events
    (employee_data : list employee) (attendance_data : list attendance)
    (weather_data : list weather) (events_data : list event) (reps : list report) :
  identify_delinquent_employees enum_dates enum_events employee_data attendance_data
    weather_data events_data = Ok reps ->
  sublist (map rep_employee reps) employee_data.
Proof.
  revert reps; induction employee_data as [|emp rest IH]; intros reps; simpl.
  - intros [= <-]. constructor.
  - destruct (process_employee _ _ _ _ _ emp) as [o|x] eqn:Hp; simpl; [|discriminate].
    destruct (identify_delinquent_employees _ _ rest _ _ _) as [reps'|x]; simpl; [|discriminate].
    intros [= <-]. specialize (IH reps' eq_refl).
    destruct o as [r|]; [|by apply sublist_cons].
    destruct (PipelineFacts.process_employee_ok _ _ _ _ _ _ _ Hp)
      as (ead & poor & evs & avg & _ & _ & _ & _ & Ho).
    destruct (3 <? _); [|discriminate]. injection Ho as ->. simpl. by apply sublist_skip.
Qed.

(** X17: the same for the data-frame pipeline [analyze_data]. *)
Theorem analyze_data_reports_in_roster_order (employee_data : list employee)
    (attendance_df : list attendance) (weather_df : list weather) (events_df : list event)
    (reps : list report) :
  AttendanceReportAlternate.analyze_data employee_data attendance_df weather_df events_df
    = Ok reps ->
  sublist (map rep_employee reps) employee_data.
Proof.
  revert reps; induction employee_data as [|emp rest IH]; intros reps; simpl.
  - intros [= <-]. constructor.
  - destruct (AttendanceReportAlternate.process_employee _ _ _ emp) as [o|x] eqn:Hp; simpl;
      [|discriminate].
    destruct (AttendanceReportAlternate.analyze_data rest _ _ _) as [reps'|x]; simpl;
      [|discriminate].
    intros [= <-]. specialize (IH reps' eq_refl).
    destruct o as [r|]; [|by apply sublist_cons].
    unfold AttendanceReportAlternate.process_employee in Hp.
    destruct (AttendanceReportAlternate.get_employee_attendance_data _ _ _) as [ead|x];
      simpl in Hp; [|discriminate].
    destruct (AttendanceReportAlternate.check_employee_times ead) as [[timed poor]|x];
      simpl in Hp; [|discriminate].
    destruct (AttendanceReportAlternate.check_dates_against_events _ _ _ _) as [evs|x];
      simpl in Hp; [|discriminate].
    destruct (Z.ltb _ _); [|discriminate]. injection Hp as <-. simpl. by apply sublist_skip.
Qed.

(** X14: on a non-empty list of rows that all lack both clock times (and
    whose dates convert to timestamps), the hand-rolled
    [check_employee_times] lists every row's date as a poor day, while the
    data-frame [check_employee_times] raises TypeError: its all-[NaT]
    [clock_in] column cannot be compared with 08:15:00. *)
Theorem absent_rows_split_pipelines (rows : list attendance)
    (frs : list AttendanceReportAlternate.frame_row) :
  rows <> [] ->
  (forall a, a ∈ rows -> clock_in a = None /\ clock_out a = None) ->
  rmap AttendanceReportAlternate.frame_row_of rows = Ok frs ->
  check_employee_times rows = Ok (map att_date rows)
  /\ AttendanceReportAlternate.check_employee_times frs = Err TypeError.
Proof.
  intros Hne Habs Hf.
  destruct (ExtraFacts.absent_rows_convert rows frs Habs Hf) as (Hc & trs & Ht & Hlen & Hna).
  split; [done|]. unfold AttendanceReportAlternate.check_employee_times. rewrite Ht. simpl.
  rewrite Hna, bool_decide_false; [done|]. intros ->. by destruct rows.
Qed.

End Extras.

(* ------------------------------------------------------------------ *)
(** ** The claims on the sample scenario *)

Module Witnesses.

Import AttendanceReport SpecWords Samples Claims Refinement.

Lemma check_employee_times_classifies_witness :
  map att_date (List.filter delinquent_row march_rows) = march_delinquent.
Proof.
  destruct (proj1 (check_employee_times_classifies march_rows march_delinquent)
                  ltac:(vm_compute; reflexivity)) as [_ H].
  exact (eq_sym H).
Defined.

Lemma severe_weather_set_difference_witness :
  weather_set_of weather_data "US" = Ok ["2023-03-29"]
  /\ (forall d, d ∈ no_weather_excuse remove_dups march_delinquent ["2023-03-29"]
                <-> d ∈ march_delinquent /\ d ∉ ["2023-03-29"]).
Proof.
  split; [vm_compute; reflexivity|].
  exact (proj1 (proj2 (severe_weather_set_difference remove_dups
           (fun l x => elem_of_remove_dups l x) weather_data "US" ["2023-03-29"]
           march_delinquent ltac:(vm_compute; reflexivity)))).
Defined.

Lemma events_within_one_day_witness :
  exists out, check_dates_against_events remove_dups remove_dups weather_data events_data
                march_delinquent "US" = Ok out
  /\ exists ws per, weather_set_of weather_data "US" = Ok ws
                    /\ out = remove_duplicate_events (concat per).
Proof.
  destruct (check_dates_against_events remove_dups remove_dups weather_data events_data
              march_delinquent "US") as [out|e] eqn:H; [|vm_compute in H; discriminate H].
  exists out. split; [reflexivity|].
  destruct (events_within_one_day remove_dups remove_dups (fun l x => elem_of_remove_dups l x)
              weather_data events_data march_delinquent "US" out H)
    as (ws & per & Hws & _ & Hout).
  exists ws, per. split; [exact Hws|exact Hout].
Defined.

Lemma remove_duplicate_events_sample :
  remove_duplicate_events
    [mk_event_reason "US" "Fair" "2023-03-09"; mk_event_reason "US" "Expo" "2023-03-09";
     mk_event_reason "US" "Parade" "2023-02-28"]
  = [mk_event_reason "US" "Fair" "2023-03-09"; mk_event_reason "US" "Parade" "2023-02-28"].
Proof. vm_compute. reflexivity. Defined.

Lemma average_is_total_over_distinct_weeks_witness :
  exists avg, calculate_average_hours_per_week march_rows = Ok avg
  /\ (avg == Qsum march_hours / inject_Z (Z.of_nat (length (remove_dups (map iso_week march_dates)))))%Q.
Proof.
  apply average_is_total_over_distinct_weeks; [discriminate| |];
    vm_compute; repeat constructor.
Defined.

Lemma report_iff_more_than_three_events_witness :
  exists reps, identify_delinquent_employees remove_dups remove_dups [emp_us] attendance_data
                 weather_data events_data = Ok reps
  /\ map (fun r => length (rep_events r)) reps = [4%nat]
  /\ (forall r, r ∈ reps -> rep_employee r ∈ [emp_us]).
Proof.
  eexists. split; [vm_compute; reflexivity|]. split; [vm_compute; reflexivity|].
  eapply (proj2 (report_iff_more_than_three_events remove_dups remove_dups [emp_us]
                   attendance_data weather_data events_data _ _)).
  Unshelve. vm_compute. reflexivity.
Defined.

Lemma no_rows_division_by_zero_witness :
  calculate_average_hours_per_week [] = Err ZeroDivisionError
  /\ exists e, identify_delinquent_employees remove_dups remove_dups [emp_us; emp_idle]
                 attendance_data weather_data events_data = Err e.
Proof.
  destruct (no_rows_division_by_zero remove_dups remove_dups [emp_us; emp_idle] attendance_data
              weather_data events_data emp_idle ltac:(by repeat constructor)
              ltac:(vm_compute; reflexivity)) as (H1 & _ & H3).
  split; [exact H1|exact H3].
Defined.

Lemma employee_rows_of_year_witness :
  march_rows = List.filter (row_of_employee_in_year 1 2023) attendance_data.
Proof.
  exact (proj2 (proj1 (employee_rows_of_year 1 2023 attendance_data march_rows)
                      ltac:(vm_compute; reflexivity))).
Defined.

Lemma one_missing_clock_fails_witness :
  check_employee_times [half_row] = Err TypeError
  /\ exists e, identify_delinquent_employees remove_dups remove_dups [emp_us]
                 (half_row :: attendance_data) weather_data events_data = Err e.
Proof.
  destruct (one_missing_clock_fails remove_dups remove_dups [emp_us] (half_row :: attendance_data)
              weather_data events_data emp_us half_row
              ltac:(by repeat constructor) ltac:(by repeat constructor)
              ltac:(vm_compute; reflexivity)
              ltac:(right; split; [discriminate|reflexivity])) as (_ & H2 & H3).
  split; [|exact H3].
  apply (H2 "08:00:00"%string (mk_time 8 0 0)); [left; reflexivity|vm_compute; reflexivity].
Defined.


(** The counter-scenario of the specification: without the first event
    only three event dates are left and nobody is reported. *)
Example three_events_no_report :
  identify_delinquent_employees remove_dups remove_dups [emp_us] attendance_data
    weather_data (tail events_data) = Ok [].
Proof. vm_compute. reflexivity. Qed.

End Witnesses.

(* ------------------------------------------------------------------ *)
(** ** Sample runs of the further properties *)

Module ExtraWitnesses.

Import AttendanceReport Samples Extras.

Lemma check_if_date_is_in_year_parsed_year_witness :
  check_if_date_is_in_year "2023-03-01" 2024 = Ok false.
Proof.
  exact (check_if_date_is_in_year_parsed_year "2023-03-01" (mk_date 2023 3 1) 2024
           ltac:(vm_compute; reflexivity)).
Defined.

Lemma check_if_date_is_in_year_reads_first_field_witness :
  check_if_date_is_in_year ("2023" ++ String "-" "not a date") 2023
  = check_if_date_is_in_year "2023" 2023.
Proof.
  exact (check_if_date_is_in_year_reads_first_field "2023" "not a date" 2023
           ltac:(simpl; intuition discriminate)).
Defined.

Lemma calculate_total_hours_sign_and_bounds_witness :
  exists h, calculate_total_hours "16:00:00" "08:15:00" = Ok h
    /\ (h == inject_Z (seconds_of (mk_time 8 15 0) - seconds_of (mk_time 16 0 0)) / 3600)%Q
    /\ (-24 < h < 24)%Q
    /\ ((h < 0)%Q <-> time_lt (mk_time 8 15 0) (mk_time 16 0 0) = true).
Proof.
  exact (calculate_total_hours_sign_and_bounds "16:00:00" "08:15:00"
           (mk_time 16 0 0) (mk_time 8 15 0)
           ltac:(vm_compute; reflexivity) ltac:(vm_compute; reflexivity)).
Defined.

Lemma remove_duplicate_events_distinct_identity_witness :
  remove_duplicate_events
    [mk_event_reason "US" "Fair" "2023-03-09"; mk_event_reason "US" "Parade" "2023-02-28"]
  = [mk_event_reason "US" "Fair" "2023-03-09"; mk_event_reason "US" "Parade" "2023-02-28"].
Proof.
  exact (remove_duplicate_events_distinct_identity
           [mk_event_reason "US" "Fair" "2023-03-09"; mk_event_reason "US" "Parade" "2023-02-28"]
           ltac:(apply (bool_decide_unpack _); vm_compute; reflexivity)).
Defined.

Lemma get_employee_attendance_data_ignores_other_employees_witness :
  get_employee_attendance_data 1 (march_rows ++ [mk_attendance 2 "no date" None None]) 2023
  = get_employee_attendance_data 1 (march_rows ++ []) 2023.
Proof.
  exact (get_employee_attendance_data_ignores_other_employees 1 2023
           (mk_attendance 2 "no date" None None) march_rows [] ltac:(discriminate)).
Defined.

Lemma attendance_selections_agree_witness :
  exists out, get_employee_attendance_data 1 attendance_data 2023 = Ok out
    /\ AttendanceReportAlternate.get_employee_attendance_data attendance_data 1 2023
       = rmap AttendanceReportAlternate.frame_row_of out.
Proof.
  destruct (rmap AttendanceReportAlternate.frame_row_of attendance_data) as [frs|e] eqn:H;
    [|vm_compute in H; discriminate H].
  exact (attendance_selections_agree attendance_data 1 2023 frs H).
Defined.

Lemma compliant_employee_not_reported_witness :
  exists reps,
    identify_delinquent_employees remove_dups remove_dups [emp_us; emp_idle]
      (attendance_data ++ [mk_attendance 2 "2023-03-06" (Some "08:00:00") (Some "16:30:00")])
      weather_data events_data = Ok reps
    /\ reps <> []
    /\ forall r, r ∈ reps -> rep_employee r <> emp_idle.
Proof.
  destruct (identify_delinquent_employees remove_dups remove_dups [emp_us; emp_idle]
      (attendance_data ++ [mk_attendance 2 "2023-03-06" (Some "08:00:00") (Some "16:30:00")])
      weather_data events_data) as [reps|e] eqn:H; [|vm_compute in H; discriminate H].
  exists reps. split; [reflexivity|]. split; [vm_compute in H; injection H as <-; discriminate|].
  exact (compliant_employee_not_reported remove_dups remove_dups
           (fun l x => elem_of_remove_dups l x) [emp_us; emp_idle]
           (attendance_data ++ [mk_attendance 2 "2023-03-06" (Some "08:00:00") (Some "16:30:00")])
           weather_data events_data reps emp_idle
           [mk_attendance 2 "2023-03-06" (Some "08:00:00") (Some "16:30:00")] H
           ltac:(vm_compute; reflexivity) ltac:(vm_compute; reflexivity)).
Defined.

Lemma other_country_rows_ignored_witness :
  check_dates_against_events remove_dups remove_dups
    ([] ++ [mk_weather "GB" "no date" "hail" 0] ++ weather_data)
    ([] ++ [mk_event "GB" "no date" "Derby"] ++ events_data) march_delinquent "US"
  = check_dates_against_events remove_dups remove_dups ([] ++ weather_data) ([] ++ events_data)
      march_delinquent "US".
Proof.
  exact (other_country_rows_ignored remove_dups remove_dups [] [mk_weather "GB" "no date" "hail" 0]
           weather_data [] [mk_event "GB" "no date" "Derby"] events_data march_delinquent "US"
           ltac:(repeat constructor; simpl; discriminate)
           ltac:(repeat constructor; simpl; discriminate)).
Defined.

Lemma alternate_events_ignore_weather_witness :
  AttendanceReportAlternate.check_dates_against_events weather_data events_data
    [AttendanceReportAlternate.mk_timed_row 1 (mk_date 2023 3 29) None None] "US"
  = AttendanceReportAlternate.check_dates_against_events [mk_weather "US" "2023-03-01" "sunny" 20]
      events_data [AttendanceReportAlternate.mk_timed_row 1 (mk_date 2023 3 29) None None] "US".
Proof.
  exact (alternate_events_ignore_weather weather_data [mk_weather "US" "2023-03-01" "sunny" 20]
           events_data [AttendanceReportAlternate.mk_timed_row 1 (mk_date 2023 3 29) None None]
           "US" ltac:(discriminate) ltac:(discriminate)).
Defined.

Lemma check_employee_times_pipelines_agree_witness :
  exists trs poor dds,
    AttendanceReportAlternate.check_employee_times
      [AttendanceReportAlternate.mk_frame_row 1 (mk_date 2023 3 1) None None;
       AttendanceReportAlternate.mk_frame_row 1 (mk_date 2023 3 2)
         (Some "08:00:00") (Some "16:00:00");
       AttendanceReportAlternate.mk_frame_row 1 (mk_date 2023 3 3)
         (Some "08:30:00") (Some "16:00:00")]
      = Ok (trs, poor)
    /\ rmap parse_date ["2023-03-01"; "2023-03-03"] = Ok dds
    /\ Permutation (map AttendanceReportAlternate.tr_date poor) dds.
Proof.
  exact (check_employee_times_pipelines_agree
           [mk_attendance 1 "2023-03-01" None None;
            mk_attendance 1 "2023-03-02" (Some "08:00:00") (Some "16:00:00");
            mk_attendance 1 "2023-03-03" (Some "08:30:00") (Some "16:00:00")]
           ["2023-03-01"; "2023-03-03"]
           [AttendanceReportAlternate.mk_frame_row 1 (mk_date 2023 3 1) None None;
            AttendanceReportAlternate.mk_frame_row 1 (mk_date 2023 3 2)
              (Some "08:00:00") (Some "16:00:00");
            AttendanceReportAlternate.mk_frame_row 1 (mk_date 2023 3 3)
              (Some "08:30:00") (Some "16:00:00")]
           ltac:(vm_compute; reflexivity) ltac:(vm_compute; reflexivity)
           ltac:(right; exists (mk_attendance 1 "2023-03-02" (Some "08:00:00") (Some "16:00:00"));
                 split; [apply list_elem_of_In; simpl; tauto|discriminate])).
Defined.

Lemma alternate_check_employee_times_classifies_witness :
  exists trs poor,
    AttendanceReportAlternate.check_employee_times
      [AttendanceReportAlternate.mk_frame_row 1 (mk_date 2023 4 3) (Some "08:00:00") None;
       AttendanceReportAlternate.mk_frame_row 1 (mk_date 2023 4 4)
         (Some "08:30:00") (Some "16:00:00")]
      = Ok (trs, poor)
    /\ Forall2 (fun r tr => tr = AttendanceReportAlternate.mk_timed_row
                  (AttendanceReportAlternate.f_record_id r) (AttendanceReportAlternate.f_date r)
                  (AttendanceReportAlternate.f_clock_in r ≫= strptime_time)
                  (AttendanceReportAlternate.f_clock_out r ≫= strptime_time))
         [AttendanceReportAlternate.mk_frame_row 1 (mk_date 2023 4 3) (Some "08:00:00") None;
          AttendanceReportAlternate.mk_frame_row 1 (mk_date 2023 4 4)
            (Some "08:30:00") (Some "16:00:00")] trs
    /\ (forall tr, tr ∈ poor <-> tr ∈ trs
          /\ (AttendanceReportAlternate.tr_clock_in tr = None
              \/ AttendanceReportAlternate.tr_clock_out tr = None
              \/ (exists t, AttendanceReportAlternate.tr_clock_in tr = Some t
                            /\ time_lt start_time t = true)
              \/ (exists t, AttendanceReportAlternate.tr_clock_out tr = Some t
                            /\ time_lt t end_time = true))).
Proof.
  exact (alternate_check_employee_times_classifies
           [AttendanceReportAlternate.mk_frame_row 1 (mk_date 2023 4 3) (Some "08:00:00") None;
            AttendanceReportAlternate.mk_frame_row 1 (mk_date 2023 4 4)
              (Some "08:30:00") (Some "16:00:00")]
           ltac:(intros r Hr; apply list_elem_of_In in Hr; simpl in Hr;
                 destruct Hr as [<-|[<-|[]]]; split; intros s Hs; simpl in Hs;
                 first [injection Hs as <-; vm_compute; by eexists | discriminate Hs])
           ltac:(right; split;
                 [exists (AttendanceReportAlternate.mk_frame_row 1 (mk_date 2023 4 3)
                            (Some "08:00:00") None)
                 |exists (AttendanceReportAlternate.mk_frame_row 1 (mk_date 2023 4 4)
                            (Some "08:30:00") (Some "16:00:00"))];
                 (split; [apply list_elem_of_In; simpl; tauto|by eexists]))).
Defined.

Lemma identify_reports_in_roster_order_witness :
  exists reps,
    identify_delinquent_employees remove_dups remove_dups [emp_idle; emp_us]
      (attendance_data ++ [mk_attendance 2 "2023-03-06" (Some "08:00:00") (Some "16:30:00")])
      weather_data events_data = Ok reps
    /\ sublist (map rep_employee reps) [emp_idle; emp_us].
Proof.
  destruct (identify_delinquent_employees remove_dups remove_dups [emp_idle; emp_us]
      (attendance_data ++ [mk_attendance 2 "2023-03-06" (Some "08:00:00") (Some "16:30:00")])
      weather_data events_data) as [reps|e] eqn:H; [|vm_compute in H; discriminate H].
  exists reps. split; [reflexivity|].
  exact (identify_reports_in_roster_order remove_dups remove_dups [emp_idle; emp_us] _ _ _ reps H).
Defined.

Lemma analyze_data_reports_in_roster_order_witness :
  exists reps,
    AttendanceReportAlternate.analyze_data [emp_idle; emp_us] attendance_data weather_data
      events_data = Ok reps
    /\ sublist (map rep_employee reps) [emp_idle; emp_us].
Proof.
  destruct (AttendanceReportAlternate.analyze_data [emp_idle; emp_us] attendance_data weather_data
      events_data) as [reps|e] eqn:H; [|vm_compute in H; discriminate H].
  exists reps. split; [reflexivity|].
  exact (analyze_data_reports_in_roster_order [emp_idle; emp_us] _ _ _ reps H).
Defined.

Lemma absent_rows_split_pipelines_witness :
  check_employee_times
    [mk_attendance 1 "2023-03-08" None None; mk_attendance 1 "2023-03-09" None None]
    = Ok ["2023-03-08"; "2023-03-09"]%string
  /\ AttendanceReportAlternate.check_employee_times
       [AttendanceReportAlternate.mk_frame_row 1 (mk_date 2023 3 8) None None;
        AttendanceReportAlternate.mk_frame_row 1 (mk_date 2023 3 9) None None]
     = Err TypeError.
Proof.
  exact (absent_rows_split_pipelines
           [mk_attendance 1 "2023-03-08" None None; mk_attendance 1 "2023-03-09" None None]
           [AttendanceReportAlternate.mk_frame_row 1 (mk_date 2023 3 8) None None;
            AttendanceReportAlternate.mk_frame_row 1 (mk_date 2023 3 9) None None]
           ltac:(discriminate)
           ltac:(intros a Ha; apply list_elem_of_In in Ha; simpl in Ha;
                 destruct Ha as [<-|[<-|[]]]; split; reflexivity)
           ltac:(vm_compute; reflexivity)).
Defined.

End ExtraWitnesses.
